(** * zotero-mcp: the dual-backend data-access layer and its cache

    A shallow embedding of the parts of the TypeScript sources that the
    specification's testable properties talk about:

    - [Cache]            the expiring key/value store (utils/cache.ts);
    - [LocalBackend]     the SQLite backend (backends/local.ts), with the
                         tables it reads as lists of rows and each prepared
                         statement as a list comprehension;
    - [WebAPIBackend]    the HTTP backend (backends/web-api.ts), with [fetch]
                         as an explicit function from URLs to responses.

    Conventions.  A JavaScript [number] that the code uses as an integer is a
    [Z]; [NaN] only arises from [parseInt] and has its own constructor.
    Strings are byte strings (UTF-8).  An [async] function returns a
    [Promise]: [Resolved v] or [Rejected e].  [Date.now()] is an explicit
    clock reading passed to the operation that consults it.  An object
    property holding [undefined] is modelled as an absent property. *)

From stdpp Require Import gmap strings list fin_maps sorting pretty.
From Stdlib Require Import ZArith Ascii String.

#[local] Set Warnings "-register-all".
#[local] Open Scope string_scope.
#[local] Open Scope Z_scope.

(** ** utils/cache.ts *)

Module Cache.

Record CacheEntry (T : Type) : Type := mkEntry { value : T; expires : Z }.
Arguments mkEntry {T} _ _.
Arguments value {T} _.
Arguments expires {T} _.

(** [private store: Map<string, CacheEntry<T>>; private ttl: number] *)
Record t (T : Type) : Type := mk { store : gmap string (CacheEntry T); ttl : Z }.
Arguments mk {T} _ _.
Arguments store {T} _.
Arguments ttl {T} _.

Section Ops.
Context {T : Type}.

(** [constructor(ttlSeconds = 300)] *)
Definition new (ttlSeconds : option Z) : t T :=
  mk ∅ (default 300 ttlSeconds * 1000).

(** [get(key)]: the result and the cache afterwards. *)
Definition get (now : Z) (key : string) (c : t T) : option T * t T :=
  match store c !! key with
  | None => (None, c)
  | Some entry =>
      if now >? expires entry
      then (None, mk (delete key (store c)) (ttl c))
      else (Some (value entry), c)
  end.

(** [set(key, value)] *)
Definition set (now : Z) (key : string) (v : T) (c : t T) : t T :=
  mk (<[key := mkEntry v (now + ttl c)]> (store c)) (ttl c).

(** [has(key)]: [this.get(key) !== undefined] *)
Definition has (now : Z) (key : string) (c : t T) : bool * t T :=
  let '(r, c') := get now key c in
  (match r with Some _ => true | None => false end, c').

(** [delete(key)]: [Map.delete] tells whether the key was present. *)
Definition delete (key : string) (c : t T) : bool * t T :=
  (bool_decide (is_Some (store c !! key)),
   mk (base.delete key (store c)) (ttl c)).

(** [clear()] *)
Definition clear (c : t T) : t T := mk ∅ (ttl c).

(** [cleanup()]: drops every entry with [now > entry.expires]. *)
Definition cleanup (now : Z) (c : t T) : t T :=
  mk (filter (λ kv, ¬ (now > expires kv.2)) (store c)) (ttl c).
End Ops.

End Cache.

(** ** JavaScript values and operators used by the backends *)

(** [Error]: only the message is ever inspected. *)
Record Error : Type := mkError { message : string }.

(** The outcome of an [async] function. *)
Inductive Promise (A : Type) : Type :=
| Resolved (a : A)
| Rejected (e : Error).
Arguments Resolved {A} _.
Arguments Rejected {A} _.

#[export] Instance promise_ret : MRet Promise := λ A a, Resolved a.
#[export] Instance promise_bind : MBind Promise := λ A B f p,
  match p with Resolved a => f a | Rejected e => Rejected e end.

(** [try { p } catch (error) { h error }] *)
Definition try_catch {A} (p : Promise A) (h : Error → Promise A) : Promise A :=
  match p with Resolved a => Resolved a | Rejected e => h e end.

(** [xs.map(f)] when [f] may throw: the first exception aborts the map. *)
Fixpoint map_throwing {A B} (f : A → Promise B) (xs : list A) : Promise (list B) :=
  match xs with
  | [] => Resolved []
  | x :: xs' => y ← f x; ys ← map_throwing f xs'; Resolved (y :: ys)
  end.

(** A [number] that may be [NaN]. *)
Inductive number : Type := NaN | Num (z : Z).

(** [a < b] on numbers: any comparison with [NaN] is [false]. *)
Definition number_lt (a b : number) : bool :=
  match a, b with Num x, Num y => x <? y | _, _ => false end.

(** Parsed JSON; an item of the type model is a JavaScript object, that is
    a finite map from property names to such values. *)
Inductive JSON : Type :=
| JNull
| JBool (b : bool)
| JNum (z : Z)
| JStr (s : string)
| JArr (l : list JSON)
| JObj (m : gmap string JSON).

Abbreviation ZoteroItem := (gmap string JSON).

Module JS.

(** [x || d] for an optional integer: [undefined] and [0] are falsy. *)
Definition or_num (x : option Z) (d : Z) : Z :=
  match x with
  | Some n => if n =? 0 then d else n
  | None => d
  end.

(** Truthiness of an optional string: [undefined], [null] and the empty
    string are falsy. *)
Definition truthy (x : option string) : bool :=
  match x with
  | Some (String _ _) => true
  | _ => false
  end.

(** [x || d] for an optional string. *)
Definition or_str (x : option string) (d : string) : string :=
  match x with
  | Some (String c s) => String c s
  | _ => d
  end.

(** [s.startsWith(p)] *)
Fixpoint startsWith (p s : string) : bool :=
  match p, s with
  | EmptyString, _ => true
  | String a p', String b s' => Ascii.eqb a b && startsWith p' s'
  | String _ _, EmptyString => false
  end.

(** [s.includes(needle)] *)
Fixpoint includes (needle s : string) : bool :=
  startsWith needle s
  || match s with
     | EmptyString => false
     | String _ s' => includes needle s'
     end.

(** [xs.join(sep)] *)
Fixpoint join (sep : string) (xs : list string) : string :=
  match xs with
  | [] => ""
  | [x] => x
  | x :: xs' => x ++ sep ++ join sep xs'
  end.

(** [s.split(sep)] for a one-character separator. *)
Fixpoint split (sep : ascii) (s : string) : list string :=
  match s with
  | EmptyString => [""]
  | String c s' =>
      if Ascii.eqb c sep then "" :: split sep s'
      else match split sep s' with
           | h :: t => String c h :: t
           | [] => [String c ""]
           end
  end.

(** White space, on ASCII: TAB, LF, VT, FF, CR and SPACE. *)
Definition is_space (c : ascii) : bool :=
  let n := N_of_ascii c in ((9 <=? n) && (n <=? 13))%N || (n =? 32)%N.

Fixpoint trimStart (s : string) : string :=
  match s with
  | String c s' => if is_space c then trimStart s' else s
  | EmptyString => EmptyString
  end.

(** [s.trim()] *)
Definition trim (s : string) : string :=
  String.rev (trimStart (String.rev (trimStart s))).

Definition digit (c : ascii) : option Z :=
  let n := N_of_ascii c in
  if ((48 <=? n) && (n <=? 57))%N then Some (Z.of_N n - 48) else None.

(** The longest run of decimal digits at the head of [s], read with
    accumulator [acc]; [None] when [s] does not start with a digit. *)
Fixpoint digits (acc : option Z) (s : string) : option Z :=
  match s with
  | String c s' =>
      match digit c with
      | Some d => digits (Some (10 * default 0 acc + d)) s'
      | None => acc
      end
  | EmptyString => acc
  end.

(** [parseInt(s, 10)] *)
Definition parseInt (s : string) : number :=
  let s := trimStart s in
  let '(neg, s) :=
    match s with
    | String c s' =>
        if Ascii.eqb c "-" then (true, s')
        else if Ascii.eqb c "+" then (false, s')
        else (false, s)
    | EmptyString => (false, s)
    end in
  match digits None s with
  | Some n => Num (if neg : bool then - n else n)
  | None => NaN
  end.

(** An object literal whose optional properties are left out when
    [undefined]. *)
Definition obj (props : list (string * option JSON)) : gmap string JSON :=
  foldl (λ m p, match p.2 with Some v => <[p.1 := v]> m | None => m end) ∅ props.

(** [s || undefined] as a property value. *)
Definition str_or_undefined (s : option string) : option JSON :=
  if truthy s then JStr <$> s else None.

(** A string-valued property of an object, as [o.name] reads it. *)
Definition prop_str (o : gmap string JSON) (name : string) : option string :=
  match o !! name with Some (JStr s) => Some s | _ => None end.

(** [item.name || []], for a property holding an array of objects. *)
Definition prop_objects (item : ZoteroItem) (name : string) : list (gmap string JSON) :=
  match item !! name with
  | Some (JArr l) => omap (λ j, match j with JObj o => Some o | _ => None end) l
  | _ => []
  end.

End JS.

(** ** backends/types.ts and config.ts *)

Inductive Direction : Type := asc | desc.

Record SearchFilters : Type := mkFilters {
  itemType : option string;        (* single type or comma-separated *)
  tags : option (list string);
  collectionKey : option string;
  sinceVersion : option Z;
  includeTrashed : option bool;
  sort : option string;
  direction : option Direction;
  limit : option Z;
  start : option Z;
}.

(** [{}]: every filter left out. *)
Definition no_filters : SearchFilters :=
  mkFilters None None None None None None None None None.

Record SearchResult : Type := mkResult {
  items : list ZoteroItem;
  totalResults : number;
  hasMore : bool;
  nextStart : Z;
}.

Inductive ZoteroMode : Type := WEB | LOCAL.

Record ZoteroConfig : Type := mkConfig {
  mode : ZoteroMode;
  apiKey : option string;
  userId : option string;
  groupId : option string;
  apiBaseUrl : string;
  dataDir : option string;
  defaultLimit : Z;
  maxLimit : Z;
  cacheEnabled : bool;
  cacheTtl : Z;
  extractPdfText : bool;
  maxFulltextLength : Z;
}.


(** [getLibraryPrefix]; an [undefined] user id is interpolated as the text
    [undefined]. *)
Definition getLibraryPrefix (config : ZoteroConfig) : string :=
  if JS.truthy (groupId config)
  then "groups/" ++ default "" (groupId config)
  else "users/" ++ default "undefined" (userId config).

(** Observers of an item, as a caller reads them: [item.key],
    [item.itemType] and the names in [item.tags]. *)
Definition item_key (it : ZoteroItem) : option string :=
  match it !! "key" with Some (JStr k) => Some k | _ => None end.


Definition tag_name (j : JSON) : option string :=
  match j with
  | JObj m => match m !! "tag" with Some (JStr s) => Some s | _ => None end
  | _ => None
  end.

Definition item_tag_names (it : ZoteroItem) : list string :=
  match it !! "tags" with
  | Some (JArr l) => omap tag_name l
  | _ => []
  end.

(** ** The SQL the local backend relies on *)

Module SQL.

Definition upper (c : ascii) : ascii :=
  let n := N_of_ascii c in
  if ((97 <=? n) && (n <=? 122))%N then ascii_of_N (n - 32) else c.

(** [s LIKE p]: [%] matches any run, [_] one character, letters match
    regardless of ASCII case. *)
Fixpoint like (p s : string) : bool :=
  match p with
  | EmptyString => match s with EmptyString => true | _ => false end
  | String c p' =>
      if Ascii.eqb c "%" then
        (fix star (s : string) : bool :=
           like p' s
           || match s with
              | EmptyString => false
              | String _ s' => star s'
              end) s
      else
        match s with
        | EmptyString => false
        | String d s' =>
            (Ascii.eqb c "_" || Ascii.eqb (upper c) (upper d)) && like p' s'
        end
  end.

(** A nullable column compared with [LIKE]: [NULL] never matches. *)
Definition like_null (p : string) (s : option string) : bool :=
  match s with Some s => like p s | None => false end.

(** [... LIMIT l OFFSET o]: a negative offset counts as zero and a
    negative limit means no upper bound. *)
Definition limit_offset {A} (l o : Z) (rows : list A) : list A :=
  let rows := drop (Z.to_nat o) rows in
  if l <? 0 then rows else take (Z.to_nat l) rows.

(** [ORDER BY col] and [ORDER BY col DESC] on a text column, compared
    bytewise. *)
Definition order_by_text {A} (col : A → string) (d : Direction) (rows : list A)
  : list A :=
  match d with
  | asc => merge_sort (λ x y, Is_true (String.leb (col x) (col y))) rows
  | desc => merge_sort (λ x y, Is_true (String.leb (col y) (col x))) rows
  end.

(** [ORDER BY col] on an integer column. *)
Definition order_by_int {A} (col : A → Z) (rows : list A) : list A :=
  merge_sort (λ x y, Is_true (col x <=? col y)) rows.

(** The first row of a result ([.get(...)]), if any. *)
Definition first_row {A} (rows : list A) : option A := head rows.

End SQL.

(** ** The tables of zotero.sqlite that the embedded queries read *)

Module Db.

Record item : Type := mkItem {
  itemID : Z; key : string; itemTypeID : Z; version : Z;
  dateAdded : string; dateModified : string }.

Record itemDatum : Type := mkItemDatum {
  id_itemID : Z; id_fieldID : Z; id_valueID : Z }.

Record creator : Type := mkCreator {
  creatorID : Z; firstName : option string; lastName : option string }.

Record itemCreator : Type := mkItemCreator {
  ic_itemID : Z; ic_creatorID : Z; ic_creatorTypeID : Z; orderIndex : Z }.

Record itemTag : Type := mkItemTag {
  it_itemID : Z; it_tagID : Z; it_type : Z }.

Record collection : Type := mkCollection {
  collectionID : Z; c_key : string; collectionName : string;
  parentCollectionID : option Z; c_version : Z }.

Record itemNote : Type := mkItemNote {
  n_itemID : Z; n_parentItemID : option Z; note : string }.

Record itemAttachment : Type := mkItemAttachment {
  ia_itemID : Z; ia_parentItemID : option Z; contentType : option string;
  path : option string; linkMode : Z }.

Record itemAnnotation : Type := mkItemAnnotation {
  ian_itemID : Z; ian_parentItemID : Z; ian_type : string;
  ian_text : option string; ian_comment : option string;
  ian_color : option string; ian_pageLabel : option string;
  ian_position : option string }.

Record t : Type := mk {
  items : list item;
  deletedItems : list Z;
  itemTypes : list (Z * string);          (* itemTypeID, typeName *)
  fields : list (Z * string);             (* fieldID, fieldName *)
  itemData : list itemDatum;
  itemDataValues : list (Z * string);     (* valueID, value *)
  creators : list creator;
  itemCreators : list itemCreator;
  creatorTypes : list (Z * string);       (* creatorTypeID, creatorType *)
  tags : list (Z * string);               (* tagID, name *)
  itemTags : list itemTag;
  collections : list collection;
  collectionItems : list (Z * Z);         (* collectionID, itemID *)
  itemNotes : list itemNote;
  itemAttachments : list itemAttachment;
  itemAnnotations : list itemAnnotation;
}.

#[global] Instance item_eq_dec : EqDecision item.
Proof. solve_decision. Defined.

(** The further tables that [getCollections], [getRelatedItems] and the
    full-text operations read.  The queries on [itemRelations] and
    [fulltextItems] name the columns [linkedItemID] and [content], which
    the tables of Zotero's own schema do not have ([itemRelations] holds
    [itemID, predicateID, object], and [fulltextItems] holds page and
    character counts): such a table is [None] here, and [Some rows] is a
    table that has the column, with the columns that the query reads. *)
Record ext : Type := mkExt {
  deletedCollections : list Z;
  itemRelations : option (list (Z * Z));        (* itemID, linkedItemID *)
  fulltextItems : option (list (Z * string));   (* itemID, content *)
  fulltextItemWords : list Z;                   (* itemID *)
}.

End Db.

(** ** utils/pdf-extractor.ts *)

Module PdfExtractor.

(** [extractPdfText(filePath)].  [existsSync] is the file system and [parse]
    the pdf-parse pipeline run on an existing file: it resolves to [None]
    when the module offers no [PDFParse] class, to the extracted text
    otherwise, and rejects on any exception. *)
Definition extractPdfText (existsSync : string → bool)
    (parse : string → Promise (option string)) (filePath : string)
  : Promise (option string) :=
  try_catch
    (if negb (existsSync filePath) then Resolved None
     else
       text ← parse filePath;
       Resolved (if JS.truthy text then text else None))
    (λ _, Resolved None).

End PdfExtractor.

(** ** backends/local.ts *)

Module LocalBackend.

(** [FIELD_NAMES], [ITEM_TYPES], [CREATOR_TYPES]: the module-level lookup
    tables that [loadMappings] fills. *)
Record Mappings : Type := mkMappings {
  FIELD_NAMES : gmap Z string;
  ITEM_TYPES : gmap Z string;
  CREATOR_TYPES : gmap Z string;
}.

Definition no_mappings : Mappings := mkMappings ∅ ∅ ∅.

Definition load_table (rows : list (Z * string)) (m : gmap Z string) : gmap Z string :=
  foldl (λ m r, <[r.1 := r.2]> m) m rows.

Definition loadMappings (db : Db.t) (g : Mappings) : Mappings :=
  mkMappings (load_table (Db.fields db) (FIELD_NAMES g))
             (load_table (Db.itemTypes db) (ITEM_TYPES g))
             (load_table (Db.creatorTypes db) (CREATOR_TYPES g)).

(** A backend instance: the open database, the configuration, the storage
    directory, and the lookup tables as they stand when it is used. *)
Record t : Type := mk {
  db : Db.t;
  config : ZoteroConfig;
  storagePath : option string;
  maps : Mappings;
}.

Section WithHost.

(** Node's [path.join]. *)
Variable path_join : list string → string.

Definition getSqlitePath (config : ZoteroConfig) : option string :=
  if JS.truthy (dataDir config)
  then Some (path_join [default "" (dataDir config); "zotero.sqlite"])
  else None.

Definition getStoragePath (config : ZoteroConfig) : option string :=
  if JS.truthy (dataDir config)
  then Some (path_join [default "" (dataDir config); "storage"])
  else None.

(** [constructor(config)]; [fs] gives the database stored at a path, if the
    file exists, and [g] the lookup tables left by earlier instances. *)
Definition new (fs : string → option Db.t) (config : ZoteroConfig) (g : Mappings)
  : Error + t :=
  match getSqlitePath config with
  | Some dbPath =>
      match (if JS.truthy (Some dbPath) then fs dbPath else None) with
      | Some d => inr (mk d config (getStoragePath config) (loadMappings d g))
      | None => inl (mkError ("Zotero database not found at: " ++ dbPath))
      end
  | None => inl (mkError "Zotero database not found at: undefined")
  end.

Definition rowToItem (M : Mappings) (row : Db.item) : ZoteroItem :=
  <["key" := JStr (Db.key row)]>
  (<["itemType" := JStr (JS.or_str (ITEM_TYPES M !! Db.itemTypeID row) "unknown")]>
  (<["version" := JNum (Db.version row)]>
  (<["dateAdded" := JStr (Db.dateAdded row)]>
  (<["dateModified" := JStr (Db.dateModified row)]> ∅)))).

Definition lower (c : ascii) : ascii :=
  let n := N_of_ascii c in
  if ((65 <=? n) && (n <=? 90))%N then ascii_of_N (n + 32) else c.

Fixpoint toLowerCase (s : string) : string :=
  match s with
  | EmptyString => EmptyString
  | String c s' => String (lower c) (toLowerCase s')
  end.

Definition fieldNameToKey_mapping : gmap string string :=
  list_to_map [
    ("title", "title"); ("abstractnote", "abstractNote"); ("date", "date");
    ("url", "url"); ("accessdate", "accessDate"); ("language", "language");
    ("publicationtitle", "publicationTitle");
    ("journalabbreviation", "journalAbbreviation"); ("volume", "volume");
    ("issue", "issue"); ("pages", "pages"); ("edition", "edition");
    ("series", "series"); ("seriesnumber", "seriesNumber"); ("doi", "DOI");
    ("isbn", "ISBN"); ("issn", "ISSN"); ("publisher", "publisher");
    ("place", "place"); ("institution", "institution");
    ("shorttitle", "shortTitle"); ("numpages", "numPages"); ("extra", "extra");
    ("callnumber", "callNumber"); ("archive", "archive");
    ("archivelocation", "archiveLocation");
    ("librarycatalog", "libraryCatalog"); ("rights", "rights") ].

Definition fieldNameToKey (fieldName : string) : string :=
  JS.or_str (fieldNameToKey_mapping !! toLowerCase fieldName) fieldName.

(** [SELECT f.fieldName, iv.value FROM itemData id JOIN itemDataValues iv
    JOIN fields f WHERE id.itemID = ?] *)
Definition item_fields (d : Db.t) (itemId : Z) : list (string * string) :=
  id ← filter (λ id, Db.id_itemID id = itemId) (Db.itemData d);
  iv ← filter (λ iv, iv.1 = Db.id_valueID id) (Db.itemDataValues d);
  f ← filter (λ f, f.1 = Db.id_fieldID id) (Db.fields d);
  [(f.2, iv.2)].

Definition loadItemFields (d : Db.t) (itemId : Z) (item : ZoteroItem) : ZoteroItem :=
  foldl (λ item field, <[fieldNameToKey field.1 := JStr field.2]> item)
        item (item_fields d itemId).

Definition loadItemCreators (B : t) (itemId : Z) : list JSON :=
  let rows :=
    SQL.order_by_int (λ r, Db.orderIndex r.1)
      (ic ← filter (λ ic, Db.ic_itemID ic = itemId) (Db.itemCreators (db B));
       c ← filter (λ c, Db.creatorID c = Db.ic_creatorID ic) (Db.creators (db B));
       [(ic, c)]) in
  map (λ r,
    let c := r.2 in
    JObj (JS.obj [
      ("creatorType",
        Some (JStr (JS.or_str (CREATOR_TYPES (maps B) !! Db.ic_creatorTypeID r.1)
                              "author")));
      ("firstName", JS.str_or_undefined (Db.firstName c));
      ("lastName", JS.str_or_undefined (Db.lastName c));
      ("name", if negb (JS.truthy (Db.firstName c)) && JS.truthy (Db.lastName c)
               then JStr <$> Db.lastName c else None) ])) rows.

(** [SELECT t.name, it.type FROM itemTags it JOIN tags t WHERE it.itemID = ?] *)
Definition item_tags (d : Db.t) (itemId : Z) : list (string * Z) :=
  it ← filter (λ it, Db.it_itemID it = itemId) (Db.itemTags d);
  t ← filter (λ t, t.1 = Db.it_tagID it) (Db.tags d);
  [(t.2, Db.it_type it)].

Definition loadItemTags (B : t) (itemId : Z) : list JSON :=
  map (λ r, JObj (JS.obj [("tag", Some (JStr r.1)); ("type", Some (JNum r.2))]))
      (item_tags (db B) itemId).

Definition loadItemCollections (B : t) (itemId : Z) : list JSON :=
  map JStr
    (ci ← filter (λ ci, ci.2 = itemId) (Db.collectionItems (db B));
     c ← filter (λ c, Db.collectionID c = ci.1) (Db.collections (db B));
     [Db.c_key c]).

(** The item types that are never top-level library items. *)
Definition child_types : list string := ["attachment"; "note"; "annotation"].

(** [SELECT itemTypeID FROM itemTypes WHERE typeName IN (names)] *)
Definition type_ids (d : Db.t) (names : list string) : list Z :=
  fst <$> filter (λ t, t.2 ∈ names) (Db.itemTypes d).

(** The text-search subquery: item ids with a data value, or a creator's
    first or last name, that is [LIKE] the pattern. *)
Definition text_hits (d : Db.t) (pattern : string) : list Z :=
  (id ← Db.itemData d;
   iv ← filter (λ iv, iv.1 = Db.id_valueID id) (Db.itemDataValues d);
   if SQL.like pattern iv.2 then [Db.id_itemID id] else [])
  ++
  (ic ← Db.itemCreators d;
   c ← filter (λ c, Db.creatorID c = Db.ic_creatorID ic) (Db.creators d);
   if SQL.like_null pattern (Db.firstName c) || SQL.like_null pattern (Db.lastName c)
   then [Db.ic_itemID ic] else []).

(** [SELECT it.itemID FROM itemTags it JOIN tags t ON it.tagID = t.tagID
    WHERE t.name = ?] *)
Definition tag_hits (d : Db.t) (tag : string) : list Z :=
  it ← Db.itemTags d;
  t ← filter (λ t, t.1 = Db.it_tagID it ∧ t.2 = tag) (Db.tags d);
  [Db.it_itemID it].

(** [SELECT ci.itemID FROM collectionItems ci JOIN collections c
    ON ci.collectionID = c.collectionID WHERE c.key = ?] *)
Definition collection_hits (d : Db.t) (key : string) : list Z :=
  ci ← Db.collectionItems d;
  c ← filter (λ c, Db.collectionID c = ci.1 ∧ Db.c_key c = key) (Db.collections d);
  [ci.2].

(** The [WHERE] clause that [searchItems] assembles, one conjunct for each
    [sql += ...]. *)
Definition search_where (d : Db.t) (query : option string)
    (filters : option SearchFilters) (i : Db.item) : bool :=
  bool_decide (Db.itemID i ∉ Db.deletedItems d)
  && bool_decide (Db.itemTypeID i ∉ type_ids d child_types)
  && (if JS.truthy query
      then bool_decide (Db.itemID i ∈ text_hits d ("%" ++ default "" query ++ "%"))
      else true)
  && (if JS.truthy (filters ≫= itemType)
      then bool_decide (Db.itemTypeID i ∈
             type_ids d (JS.trim <$> JS.split "," (default "" (filters ≫= itemType))))
      else true)
  && (match filters ≫= tags with
      | Some (tag :: rest) =>
          forallb (λ tag, bool_decide (Db.itemID i ∈ tag_hits d tag)) (tag :: rest)
      | _ => true
      end)
  && (if JS.truthy (filters ≫= collectionKey)
      then bool_decide (Db.itemID i ∈
             collection_hits d (default "" (filters ≫= collectionKey)))
      else true).

(** The column and direction of the [ORDER BY]. *)
Definition search_sort_column (filters : option SearchFilters) : Db.item → string :=
  if String.eqb (JS.or_str (filters ≫= sort) "dateModified") "dateModified"
  then Db.dateModified else Db.dateAdded.

Definition search_direction (filters : option SearchFilters) : Direction :=
  default desc (filters ≫= direction).

(** One result row turned into an item, as in the loop of [searchItems]. *)
Definition search_item (B : t) (row : Db.item) : ZoteroItem :=
  let item := rowToItem (maps B) row in
  let item := loadItemFields (db B) (Db.itemID row) item in
  let item := <["creators" := JArr (loadItemCreators B (Db.itemID row))]> item in
  let item := <["tags" := JArr (loadItemTags B (Db.itemID row))]> item in
  <["collections" := JArr (loadItemCollections B (Db.itemID row))]> item.

Definition searchItems (B : t) (query : option string)
    (filters : option SearchFilters) : Promise SearchResult :=
  let limit := JS.or_num (filters ≫= limit) (defaultLimit (config B)) in
  let offset := JS.or_num (filters ≫= start) 0 in
  let matching := filter (λ i, Is_true (search_where (db B) query filters i))
                         (Db.items (db B)) in
  (* SELECT COUNT(DISTINCT i.itemID) *)
  let totalResults := Z.of_nat (List.length (remove_dups (Db.itemID <$> matching))) in
  (* SELECT DISTINCT ... ORDER BY ... LIMIT ? OFFSET ? *)
  let rows :=
    SQL.limit_offset limit offset
      (SQL.order_by_text (search_sort_column filters) (search_direction filters)
         (remove_dups matching)) in
  let items := search_item B <$> rows in
  Resolved (mkResult items (Num totalResults)
              (offset + Z.of_nat (List.length items) <? totalResults)
              (offset + Z.of_nat (List.length items))).

(** [SELECT itemID FROM items WHERE key = ?], first row. *)
Definition item_by_key (d : Db.t) (key : string) : option Db.item :=
  SQL.first_row (filter (λ i, Db.key i = key) (Db.items d)).

(** The live row of [items] joined on [itemID]. *)
Definition live_items (d : Db.t) (itemId : Z) : list Db.item :=
  filter (λ i, Db.itemID i = itemId ∧ Db.itemID i ∉ Db.deletedItems d) (Db.items d).

Definition getItemNotes (B : t) (key : string) : Promise (list (gmap string JSON)) :=
  match item_by_key (db B) key with
  | None => Resolved []
  | Some item =>
      let notes :=
        n ← filter (λ n, Db.n_parentItemID n = Some (Db.itemID item))
                   (Db.itemNotes (db B));
        i ← live_items (db B) (Db.n_itemID n);
        [(i, n)] in
      Resolved (map (λ r,
        JS.obj [ ("key", Some (JStr (Db.key r.1)));
              ("itemType", Some (JStr "note"));
              ("note", Some (JStr (Db.note r.2)));
              ("parentItem", Some (JStr key));
              ("dateAdded", Some (JStr (Db.dateAdded r.1)));
              ("dateModified", Some (JStr (Db.dateModified r.1))) ]) notes)
  end.

Definition linkModes : list string :=
  ["imported_file"; "imported_url"; "linked_file"; "linked_url"].

(** [xs[n]] for an integer [n]. *)
Definition index {A} (xs : list A) (n : Z) : option A :=
  if n <? 0 then None else xs !! Z.to_nat n.

(** [p.replace(/^storage:/, "")] *)
Definition strip_storage (p : string) : string :=
  if JS.startsWith "storage:" p then String.substring 8 (String.length p - 8) p
  else p.

(** The title of the item with the given key, from its item data. *)
Definition title_of (d : Db.t) (key : string) : option string :=
  SQL.first_row
    (i ← filter (λ i, Db.key i = key) (Db.items d);
     id ← filter (λ id, Db.id_itemID id = Db.itemID i) (Db.itemData d);
     iv ← filter (λ iv, iv.1 = Db.id_valueID id) (Db.itemDataValues d);
     f ← filter (λ f, f.1 = Db.id_fieldID id ∧ f.2 = "title") (Db.fields d);
     [iv.2]).

Definition getItemAttachments (B : t) (key : string)
  : Promise (list (gmap string JSON)) :=
  match item_by_key (db B) key with
  | None => Resolved []
  | Some item =>
      let attachments :=
        ia ← filter (λ ia, Db.ia_parentItemID ia = Some (Db.itemID item))
                    (Db.itemAttachments (db B));
        i ← live_items (db B) (Db.ia_itemID ia);
        [(i, ia)] in
      Resolved (map (λ r,
        let akey := Db.key r.1 in
        let filename :=
          let f := strip_storage <$> Db.path r.2 in
          if JS.truthy f then f else None in
        JS.obj [ ("key", Some (JStr akey));
              ("title", Some (JStr
                 (JS.or_str (title_of (db B) akey) (JS.or_str filename akey))));
              ("itemType", Some (JStr "attachment"));
              ("linkMode", Some (JStr
                 (JS.or_str (index linkModes (Db.linkMode r.2)) "imported_file")));
              ("contentType", JS.str_or_undefined (Db.contentType r.2));
              ("filename", JStr <$> filename);
              ("path",
                match storagePath B, filename with
                | Some sp, Some f =>
                    if JS.truthy (Some sp) then Some (JStr (path_join [sp; akey; f]))
                    else None
                | _, _ => None
                end);
              ("parentItem", Some (JStr key)) ]) attachments)
  end.

Definition attachment_annotations (B : t) (attachment : gmap string JSON)
  : list (gmap string JSON) :=
  match JS.prop_str attachment "contentType", JS.prop_str attachment "key" with
  | Some ct, Some akey =>
      if String.eqb ct "application/pdf" then
        match item_by_key (db B) akey with
        | None => []
        | Some attachmentItem =>
            map (λ r,
              JS.obj [ ("key", Some (JStr (Db.key r.1)));
                    ("itemType", Some (JStr "annotation"));
                    ("annotationType", Some (JStr (Db.ian_type r.2)));
                    ("annotationText", JS.str_or_undefined (Db.ian_text r.2));
                    ("annotationComment", JS.str_or_undefined (Db.ian_comment r.2));
                    ("annotationColor", JS.str_or_undefined (Db.ian_color r.2));
                    ("annotationPageLabel", JS.str_or_undefined (Db.ian_pageLabel r.2));
                    ("annotationPosition", JS.str_or_undefined (Db.ian_position r.2));
                    ("parentItem", Some (JStr akey));
                    ("dateAdded", Some (JStr (Db.dateAdded r.1)));
                    ("dateModified", Some (JStr (Db.dateModified r.1))) ])
              (ian ← filter (λ ian, Db.ian_parentItemID ian = Db.itemID attachmentItem)
                            (Db.itemAnnotations (db B));
               i ← live_items (db B) (Db.ian_itemID ian);
               [(i, ian)])
        end
      else []
  | _, _ => []
  end.

Definition getItemAnnotations (B : t) (key : string)
  : Promise (list (gmap string JSON)) :=
  attachments ← getItemAttachments B key;
  Resolved (attachments ≫= attachment_annotations B).

Definition getItem (B : t) (key : string) (includeChildren : option bool)
  : Promise (option ZoteroItem) :=
  let row :=
    SQL.first_row
      (filter (λ i, Db.key i = key ∧ Db.itemID i ∉ Db.deletedItems (db B))
              (Db.items (db B))) in
  match row with
  | None => Resolved None
  | Some row =>
      let item := search_item B row in
      if default true includeChildren then
        attachments ← getItemAttachments B key;
        notes ← getItemNotes B key;
        annotations ← getItemAnnotations B key;
        Resolved (Some
          (<["annotations" := JArr (JObj <$> annotations)]>
          (<["notes" := JArr (JObj <$> notes)]>
          (<["attachments" := JArr (JObj <$> attachments)]> item))))
      else Resolved (Some item)
  end.

(** [{ ...filters, collectionKey }] *)
Definition with_collectionKey (filters : option SearchFilters) (key : string)
  : SearchFilters :=
  let f := default no_filters filters in
  mkFilters (itemType f) (tags f) (Some key) (sinceVersion f) (includeTrashed f)
            (sort f) (direction f) (limit f) (start f).

(** [SELECT c.key FROM collections c JOIN collections pc
    ON c.parentCollectionID = pc.collectionID WHERE pc.key = ?] *)
Definition subcollection_keys (d : Db.t) (parentKey : string) : list string :=
  c ← Db.collections d;
  pc ← filter (λ pc, Db.parentCollectionID c = Some (Db.collectionID pc)
                     ∧ Db.c_key pc = parentKey) (Db.collections d);
  [Db.c_key c].

(** The local function [getSubcollections] of [getCollectionItems], pushing
    onto [allKeys]; [depth] bounds the nesting of calls, and [None] is the
    call stack running out. *)
Fixpoint getSubcollections (depth : nat) (d : Db.t) (parentKey : string)
    (allKeys : list string) : option (list string) :=
  match depth with
  | O => None
  | S depth' =>
      foldl (λ acc sub,
               allKeys ← acc;
               getSubcollections depth' d sub (allKeys ++ [sub]))
            (Some allKeys) (subcollection_keys d parentKey)
  end.

(** Nesting allowed to the walk: one more than the number of collections,
    which no walk of an acyclic hierarchy exceeds. *)
Definition walk_depth (d : Db.t) : nat := S (List.length (Db.collections d)).

Definition getCollectionItems (B : t) (collectionKey : string)
    (recursive : option bool) (filters : option SearchFilters)
  : Promise SearchResult :=
  let updatedFilters := with_collectionKey filters collectionKey in
  if default false recursive then
    (* Get all subcollection keys *)
    match getSubcollections (walk_depth (db B)) (db B) collectionKey [collectionKey] with
    | None => Rejected (mkError "Maximum call stack size exceeded")
    | Some allKeys =>
        (* For now, we'll just use the main collection *)
        searchItems B None (Some updatedFilters)
    end
  else searchItems B None (Some updatedFilters).

Definition bibliography_unsupported : string :=
  "Bibliography generation requires Web API mode or citeproc-js integration.".

Definition getBibliography (B : t) (_keys : list string) (_style : option string)
  : Promise string :=
  Resolved bibliography_unsupported.

(** *** The remaining read operations of the local backend

    They take the further tables as [x], and the operations that consult
    the clock take [cutoff], which gives for a number of days the text of
    the instant that many days before now, as
    [toISOString().replace("T", " ").replace("Z", "")] prints it. *)

(** A collection of the type model. *)
Definition collection_obj (key name : string) (parent : option string) (version : Z)
  : gmap string JSON :=
  JS.obj [ ("key", Some (JStr key));
           ("name", Some (JStr name));
           ("parentCollection",
             Some (if JS.truthy parent then JStr (default "" parent) else JBool false));
           ("version", Some (JNum version)) ].

(** [id ? ... : false] on a nullable integer column: [NULL] and [0] are
    falsy. *)
Definition truthy_id (id : option Z) : option Z :=
  match id with
  | Some n => if n =? 0 then None else Some n
  | None => None
  end.

(** The collections that are not in [deletedCollections]. *)
Definition live_collections (d : Db.t) (x : Db.ext) : list Db.collection :=
  filter (λ c, Db.collectionID c ∉ Db.deletedCollections x) (Db.collections d).

Definition getCollections (B : t) (x : Db.ext) : Promise (list (gmap string JSON)) :=
  let rows := SQL.order_by_text Db.collectionName asc (live_collections (db B) x) in
  (* Get parent keys *)
  let idToKey : gmap Z string :=
    foldl (λ m row, <[Db.collectionID row := Db.c_key row]> m) ∅ rows in
  Resolved (map (λ row,
    collection_obj (Db.c_key row) (Db.collectionName row)
      (truthy_id (Db.parentCollectionID row) ≫= λ pid, idToKey !! pid)
      (Db.c_version row)) rows).

Definition getCollection (B : t) (x : Db.ext) (key : string)
  : Promise (option (gmap string JSON)) :=
  let row :=
    SQL.first_row
      (filter (λ c, Db.c_key c = key ∧ Db.collectionID c ∉ Db.deletedCollections x)
              (Db.collections (db B))) in
  match row with
  | None => Resolved None
  | Some row =>
      let parentKey :=
        pid ← truthy_id (Db.parentCollectionID row);
        parent ← SQL.first_row
                   (filter (λ c, Db.collectionID c = pid) (Db.collections (db B)));
        Some (Db.c_key parent) in
      Resolved (Some (collection_obj (Db.c_key row) (Db.collectionName row)
                        parentKey (Db.c_version row)))
  end.

(** One entry of [getTags]. *)
Record TagCount : Type := mkTagCount { tag : string; count : Z }.

(** [FROM tags t JOIN itemTags it JOIN items i LEFT JOIN deletedItems di
    WHERE di.itemID IS NULL [AND t.name LIKE ?]]: tag id, tag name and
    item id of every joined row. *)
Definition tag_rows (d : Db.t) (filterQuery : option string) : list (Z * string * Z) :=
  t ← filter (λ t, Is_true
                     (if JS.truthy filterQuery
                      then SQL.like ("%" ++ default "" filterQuery ++ "%") t.2
                      else true)) (Db.tags d);
  it ← filter (λ it, Db.it_tagID it = t.1) (Db.itemTags d);
  i ← live_items d (Db.it_itemID it);
  [(t.1, t.2, Db.itemID i)].

(** [ORDER BY count DESC, t.name] *)
Definition tag_order (a b : TagCount) : bool :=
  (count b <? count a) || ((count a =? count b) && String.leb (tag a) (tag b)).

Definition getTags (B : t) (filterQuery : option string) : Promise (list TagCount) :=
  let rows := tag_rows (db B) filterQuery in
  (* GROUP BY t.tagID *)
  let groups :=
    map (λ id, filter (λ r, r.1.1 = id) rows) (remove_dups ((λ r, r.1.1) <$> rows)) in
  let result :=
    map (λ g, mkTagCount (default "" ((λ r, r.1.2) <$> head g))
                (Z.of_nat (List.length (remove_dups (snd <$> g))))) groups in
  Resolved (merge_sort (λ a b, Is_true (tag_order a b)) result).

(** The loop of [getRelatedItems]: each key is looked up without
    children, and the ones not found are skipped. *)
Fixpoint related_items (B : t) (relations : list string) : Promise (list ZoteroItem) :=
  match relations with
  | [] => Resolved []
  | rel :: rest =>
      relatedItem ← getItem B rel (Some false);
      items ← related_items B rest;
      Resolved (match relatedItem with
                | Some it => it :: items
                | None => items
                end)
  end.

(** [db.prepare(sql)] on a statement that names a column which its table
    does not have: SQLite refuses the statement and [prepare] throws. *)
Definition no_such_column {A} (column : string) : Promise A :=
  Rejected (mkError ("no such column: " ++ column)).

(** A number bound to [LIMIT ?] has to convert to a 64-bit integer without
    loss; the statement fails with a datatype mismatch otherwise. *)
Definition binds_as_integer (n : Z) : bool :=
  (- 2 ^ 63 <? n) && (n <? 2 ^ 63).

(** The keys that the relation query of [getRelatedItems] selects. *)
Definition related_keys (d : Db.t) (itemRelations : list (Z * Z)) (key : string)
  : list string :=
  ir ← itemRelations;
  i1 ← filter (λ i, Db.itemID i = ir.1 ∧ Db.key i = key) (Db.items d);
  i2 ← filter (λ i, Db.itemID i = ir.2) (Db.items d);
  [Db.key i2].

Definition getRelatedItems (B : t) (x : Db.ext) (key : string)
  : Promise (list ZoteroItem) :=
  match item_by_key (db B) key with
  | None => Resolved []
  | Some _ =>
      match Db.itemRelations x with
      | None => no_such_column "ir.linkedItemID"
      | Some itemRelations => related_items B (related_keys (db B) itemRelations key)
      end
  end.





(** The attachment keys that [searchFullText] finds:
    [SELECT DISTINCT i.key FROM fulltextItems fi JOIN items i
    JOIN itemAttachments ia LEFT JOIN deletedItems di
    WHERE di.itemID IS NULL AND fi.content LIKE ? LIMIT ?]. *)
Definition fulltext_hits (d : Db.t) (fulltextItems : list (Z * string))
    (query : string) (limit : Z) : list string :=
  SQL.limit_offset limit 0
    (remove_dups
       (fi ← fulltextItems;
        i ← live_items d fi.1;
        ia ← filter (λ ia, Db.ia_itemID ia = fi.1) (Db.itemAttachments d);
        if SQL.like ("%" ++ query ++ "%") fi.2 then [Db.key i] else [])).

(** The key of the parent of the attachment with the given key. *)
Definition attachment_parent (d : Db.t) (key : string) : option string :=
  SQL.first_row
    (ia ← Db.itemAttachments d;
     i1 ← filter (λ i, Db.itemID i = Db.ia_itemID ia ∧ Db.key i = key) (Db.items d);
     i2 ← filter (λ i, Some (Db.itemID i) = Db.ia_parentItemID ia) (Db.items d);
     [Db.key i2]).

(** The loop of [searchFullText], with [seenKeys] as it stands. *)
Fixpoint fulltext_parents (B : t) (rows : list string) (seenKeys : gset string)
  : Promise (list ZoteroItem) :=
  match rows with
  | [] => Resolved []
  | key :: rest =>
      let parentKey := JS.or_str (attachment_parent (db B) key) key in
      if bool_decide (parentKey ∈ seenKeys) then fulltext_parents B rest seenKeys
      else
        item ← getItem B parentKey (Some false);
        items ← fulltext_parents B rest ({[parentKey]} ∪ seenKeys);
        Resolved (match item with
                  | Some it => it :: items
                  | None => items
                  end)
  end.

Definition searchFullText (B : t) (x : Db.ext) (query : string) (limit : option Z)
  : Promise (list ZoteroItem) :=
  let limit := default 25 limit in
  match Db.fulltextItems x with
  | None => no_such_column "fi.content"
  | Some fulltextItems =>
      if binds_as_integer limit
      then fulltext_parents B (fulltext_hits (db B) fulltextItems query limit) ∅
      else Rejected (mkError "datatype mismatch")
  end.

(** A line feed, and the separator between the texts of an item. *)
Definition LF : string := String (ascii_of_N 10) "".

Definition text_separator : string := LF ++ LF ++ "---" ++ LF ++ LF.

(** The text extracted from one attachment of [getItemFullText], if it is
    a PDF stored on disk with extractable text. *)
Definition attachment_text (existsSync : string → bool)
    (parse : string → Promise (option string)) (B : t)
    (attachment : gmap string JSON) : Promise (option string) :=
  match storagePath B with
  | Some sp =>
      if bool_decide (JS.prop_str attachment "contentType" = Some "application/pdf")
         && JS.truthy (Some sp)
      then
        let pdfPath :=
          path_join [sp; default "undefined" (JS.prop_str attachment "key");
                     JS.or_str (JS.prop_str attachment "filename") ""] in
        if existsSync pdfPath then PdfExtractor.extractPdfText existsSync parse pdfPath
        else Resolved None
      else Resolved None
  | None => Resolved None
  end.

(** [texts.push(...)] over the attachments, in order. *)
Fixpoint attachment_texts (existsSync : string → bool)
    (parse : string → Promise (option string)) (B : t)
    (attachments : list (gmap string JSON)) : Promise (list string) :=
  match attachments with
  | [] => Resolved []
  | a :: rest =>
      pdfText ← attachment_text existsSync parse B a;
      texts ← attachment_texts existsSync parse B rest;
      Resolved (if JS.truthy pdfText then default "" pdfText :: texts else texts)
  end.

Definition getItemFullText (existsSync : string → bool)
    (parse : string → Promise (option string)) (B : t) (x : Db.ext)
    (key : string) : Promise (option string) :=
  item ← getItem B key None;
  match item with
  | None => Resolved None
  | Some item =>
      (* Check for indexed full text in database *)
      match Db.fulltextItems x with
      | None => no_such_column "fi.content"
      | Some fulltextItems =>
          let fulltextRow :=
            SQL.first_row
              (fiw ← Db.fulltextItemWords x;
               fi ← filter (λ fi, fi.1 = fiw) fulltextItems;
               i ← filter (λ i, Db.itemID i = fi.1 ∧ Db.key i = key)
                          (Db.items (db B));
               [fi.2]) in
          let indexed :=
            if JS.truthy fulltextRow then [default "" fulltextRow] else [] in
          (* Try extracting from PDF attachments *)
          extracted ←
            attachment_texts existsSync parse B (JS.prop_objects item "attachments");
          let texts := (indexed ++ extracted)%list in
          Resolved (match texts with
                    | [] => None
                    | _ => Some (JS.join text_separator texts)
                    end)
      end
  end.

End WithHost.

End LocalBackend.

(** ** backends/web-api.ts *)

Module WebAPIBackend.

(** What [fetch] resolves to: [headers.get], and [json()] which may throw. *)
Record Response : Type := mkResponse {
  status : Z;
  statusText : string;
  headers_get : string → option string;
  json : Promise JSON;
}.

(** [response.ok] *)
Definition ok (r : Response) : bool := (200 <=? status r) && (status r <=? 299).

(** The network: [fetch(url, { headers })]. *)
Definition Fetch : Type := string → gmap string string → Promise Response.

Record t : Type := mk {
  config : ZoteroConfig;
  headers : gmap string string;
  libraryPrefix : string;
}.

(** [constructor(config)] *)
Definition new (config : ZoteroConfig) : t :=
  let headers : gmap string string :=
    <["Content-Type" := "application/json"]> (<["Zotero-API-Version" := "3"]> ∅) in
  mk config
     (if JS.truthy (apiKey config)
      then <["Zotero-API-Key" := default "" (apiKey config)]> headers
      else headers)
     (getLibraryPrefix config).

(** [String(n)] for an integer. *)
Definition string_of_Z (n : Z) : string := pretty n.

(** [request(endpoint, options)], with [options.headers] as the only option
    the backend ever passes. *)
Definition request (fetch : Fetch) (B : t) (endpoint : string)
    (options_headers : gmap string string)
  : Promise (JSON * (string → option string)) :=
  let url := apiBaseUrl (config B) ++ endpoint in
  response ← fetch url (options_headers ∪ headers B);
  if negb (ok response) then
    if status response =? 429 then
      let retryAfter := JS.or_str (headers_get response "Retry-After") "5" in
      Rejected (mkError ("Rate limited. Retry after " ++ retryAfter ++ " seconds."))
    else
      Rejected (mkError ("API request failed: " ++ string_of_Z (status response)
                         ++ " " ++ statusText response))
  else
    data ← json response;
    Resolved (data, headers_get response).

(** A value of the [params] record. *)
Inductive Param : Type :=
| PUndefined
| PStr (s : string)
| PNum (n : Z)
| PBool (b : bool).

(** [String(value)] *)
Definition string_of_param (v : Param) : string :=
  match v with
  | PUndefined => "undefined"
  | PStr s => s
  | PNum n => string_of_Z n
  | PBool b => if b then "true" else "false"
  end.

Definition hex_digit (n : N) : ascii :=
  ascii_of_N (if (n <? 10)%N then 48 + n else 55 + n)%N.

(** The byte-wise percent-encoding that [URLSearchParams.toString()] applies
    to names and values. *)
Definition urlencode_byte (c : ascii) : string :=
  let n := N_of_ascii c in
  if ((48 <=? n) && (n <=? 57) || (65 <=? n) && (n <=? 90)
      || (97 <=? n) && (n <=? 122)
      || (n =? 42) || (n =? 45) || (n =? 46) || (n =? 95))%N
  then String c ""
  else if (n =? 32)%N then "+"
  else String "%" (String (hex_digit (n / 16)) (String (hex_digit (n mod 16)) "")).

Fixpoint urlencode (s : string) : string :=
  match s with
  | EmptyString => ""
  | String c s' => urlencode_byte c ++ urlencode s'
  end.

(** [buildQueryString(params)] *)
Definition buildQueryString (params : list (string * Param)) : string :=
  let searchParams :=
    omap (λ kv,
      match kv.2 with
      | PUndefined | PStr "" => None
      | v => Some (urlencode kv.1 ++ "=" ++ urlencode (string_of_param v))
      end) params in
  let qs := JS.join "&" searchParams in
  if JS.truthy (Some qs) then "?" ++ qs else "".

(** [params.name = value] on a record kept in insertion order. *)
Fixpoint set_param (name : string) (v : Param) (params : list (string * Param))
  : list (string * Param) :=
  match params with
  | [] => [(name, v)]
  | (n, w) :: rest =>
      if String.eqb n name then (n, v) :: rest else (n, w) :: set_param name v rest
  end.

Definition string_of_direction (d : Direction) : string :=
  match d with asc => "asc" | desc => "desc" end.

(** The five parameters that [searchItems] and [getCollectionItems] start
    from. *)
Definition base_params (B : t) (filters : option SearchFilters)
  : list (string * Param) :=
  [ ("format", PStr "json");
    ("limit", PNum (JS.or_num (filters ≫= limit) (defaultLimit (config B))));
    ("start", PNum (JS.or_num (filters ≫= start) 0));
    ("sort", PStr (JS.or_str (filters ≫= sort) "dateModified"));
    ("direction", PStr (string_of_direction (default desc (filters ≫= direction)))) ].

(** [mapApiItem]: [{ key: apiItem.key, version: apiItem.version,
    ...apiItem.data }]; reading a property of [null] throws. *)
Definition mapApiItem (apiItem : JSON) : Promise ZoteroItem :=
  match apiItem with
  | JNull => Rejected (mkError "Cannot read properties of null (reading 'key')")
  | JObj o =>
      let top : ZoteroItem :=
        JS.obj [("key", o !! "key"); ("version", o !! "version")] in
      Resolved (match o !! "data" with
                | Some (JObj data) => data ∪ top
                | _ => top
                end)
  | _ => Resolved ∅
  end.

(** [data.map(mapApiItem)]: only an array has a [map] method. *)
Definition map_items (data : JSON) : Promise (list ZoteroItem) :=
  match data with
  | JArr l => map_throwing mapApiItem l
  | JNull => Rejected (mkError "Cannot read properties of null (reading 'map')")
  | _ => Rejected (mkError "data.map is not a function")
  end.

(** The text [rel="next"]. *)
Definition rel_next : string :=
  "rel=" ++ String (ascii_of_N 34) ("next" ++ String (ascii_of_N 34) "").

Definition fetchItemsWithTotal (fetch : Fetch) (B : t) (endpoint : string)
  : Promise SearchResult :=
  '(data, headers) ← request fetch B endpoint ∅;
  let totalResults := JS.parseInt (JS.or_str (headers "Total-Results") "0") in
  items ← map_items data;
  (* Parse Link header for pagination *)
  let linkHeader := JS.or_str (headers "Link") "" in
  let hasMore := JS.includes rel_next linkHeader in
  Resolved (mkResult items totalResults hasMore (Z.of_nat (List.length items))).

(** The parameter record of [searchItems] after its conditional
    assignments, up to the point where the collection endpoint branches
    off. *)
Definition search_params (B : t) (query : option string)
    (filters : option SearchFilters) : list (string * Param) :=
  let params := base_params B filters in
  let params :=
    if JS.truthy query
    then set_param "qmode" (PStr "everything")
           (set_param "q" (PStr (default "" query)) params)
    else params in
  let params :=
    if JS.truthy (filters ≫= itemType)
    then set_param "itemType" (PStr (default "" (filters ≫= itemType))) params
    else params in
  match filters ≫= tags with
  | Some (tag :: rest) =>
      (* Multiple tags require separate params *)
      set_param "tag" (PStr (JS.join " || " (tag :: rest))) params
  | _ => params
  end.

(** The endpoint that [searchItems] requests. *)
Definition search_endpoint (B : t) (query : option string)
    (filters : option SearchFilters) : string :=
  let params := search_params B query filters in
  if JS.truthy (filters ≫= collectionKey) then
    "/" ++ libraryPrefix B ++ "/collections/"
        ++ default "" (filters ≫= collectionKey) ++ "/items"
        ++ buildQueryString params
  else
    let params :=
      match filters ≫= sinceVersion with
      | Some v => set_param "since" (PNum v) params
      | None => params
      end in
    "/" ++ libraryPrefix B ++ "/items/top" ++ buildQueryString params.

Definition searchItems (fetch : Fetch) (B : t) (query : option string)
    (filters : option SearchFilters) : Promise SearchResult :=
  fetchItemsWithTotal fetch B (search_endpoint B query filters).

(** [children.filter((c) => c.itemType === ty)] *)
Definition children_of_type (ty : string) (children : list ZoteroItem) : JSON :=
  JArr (JObj <$> filter (λ c, JS.prop_str c "itemType" = Some ty) children).

Definition getItem (fetch : Fetch) (B : t) (key : string)
    (includeChildren : option bool) : Promise (option ZoteroItem) :=
  try_catch
    ('(apiItem, _) ← request fetch B ("/" ++ libraryPrefix B ++ "/items/" ++ key) ∅;
     item ← mapApiItem apiItem;
     if default true includeChildren then
       (* Fetch children (notes, attachments) *)
       '(apiChildren, _) ←
         request fetch B ("/" ++ libraryPrefix B ++ "/items/" ++ key ++ "/children") ∅;
       children ← map_items apiChildren;
       Resolved (Some
         (<["annotations" := children_of_type "annotation" children]>
         (<["notes" := children_of_type "note" children]>
         (<["attachments" := children_of_type "attachment" children]> item))))
     else Resolved (Some item))
    (λ error,
       if JS.includes "404" (message error) then Resolved None
       else Rejected error).

(** The endpoint that [getCollectionItems] requests. *)
Definition collection_endpoint (B : t) (collectionKey : string)
    (recursive : option bool) (filters : option SearchFilters) : string :=
  let params := base_params B filters in
  if default false recursive then
    (* This is a simplified version - full recursive would need multiple calls *)
    "/" ++ libraryPrefix B ++ "/collections/" ++ collectionKey ++ "/items"
        ++ buildQueryString params
  else
    "/" ++ libraryPrefix B ++ "/collections/" ++ collectionKey ++ "/items/top"
        ++ buildQueryString params.

Definition getCollectionItems (fetch : Fetch) (B : t) (collectionKey : string)
    (recursive : option bool) (filters : option SearchFilters)
  : Promise SearchResult :=
  fetchItemsWithTotal fetch B (collection_endpoint B collectionKey recursive filters).

(** *** Further read operations of the web backend *)

Definition getCollections (fetch : Fetch) (B : t) : Promise JSON :=
  '(data, _) ← request fetch B ("/" ++ libraryPrefix B ++ "/collections?format=json") ∅;
  Resolved data.

(** [getCollection]: the collection as the service sends it, or [null]. *)
Definition getCollection (fetch : Fetch) (B : t) (key : string) : Promise JSON :=
  try_catch
    ('(data, _) ← request fetch B ("/" ++ libraryPrefix B ++ "/collections/" ++ key) ∅;
     Resolved data)
    (λ _, Resolved JNull).

(** The children of an item, as [getItemNotes] and [getItemAttachments]
    fetch them. *)
Definition children (fetch : Fetch) (B : t) (key : string) : Promise (list ZoteroItem) :=
  '(apiChildren, _) ←
    request fetch B ("/" ++ libraryPrefix B ++ "/items/" ++ key ++ "/children?format=json") ∅;
  map_items apiChildren.

Definition getItemNotes (fetch : Fetch) (B : t) (key : string)
  : Promise (list ZoteroItem) :=
  cs ← children fetch B key;
  Resolved (filter (λ c, JS.prop_str c "itemType" = Some "note") cs).

Definition getItemAttachments (fetch : Fetch) (B : t) (key : string)
  : Promise (list ZoteroItem) :=
  cs ← children fetch B key;
  Resolved (filter (λ c, JS.prop_str c "itemType" = Some "attachment") cs).

(** *** Conversions of parsed JSON values

    Numbers are the integers of the embedding, printed in decimal. *)

(** Truthiness of a property that may be missing: [undefined], [null],
    [false], [0] and the empty string are falsy, arrays and objects are
    truthy. *)
Definition truthy_value (v : option JSON) : bool :=
  match v with
  | None | Some JNull => false
  | Some (JBool b) => b
  | Some (JNum z) => negb (z =? 0)
  | Some (JStr s) => JS.truthy (Some s)
  | Some (JArr _) | Some (JObj _) => true
  end.

(** [String(v)]: an array prints its elements separated by commas, with
    nothing for [null]; an object prints as [[object Object]], unless it
    has a property [toString] of its own, which is no function and makes
    the conversion throw a [TypeError] ([None]). *)
Fixpoint to_string (v : JSON) : option string :=
  match v with
  | JNull => Some "null"
  | JBool b => Some (if b then "true" else "false")
  | JNum z => Some (string_of_Z z)
  | JStr s => Some s
  | JArr l =>
      JS.join "," <$>
        (fix elements (l : list JSON) : option (list string) :=
           match l with
           | [] => Some []
           | e :: rest =>
               match match e with JNull => Some "" | _ => to_string e end,
                     elements rest with
               | Some s, Some ss => Some (s :: ss)
               | _, _ => None
               end
           end) l
  | JObj m =>
      match m !! "toString" with
      | Some _ => None
      | None => Some "[object Object]"
      end
  end.

Definition not_primitive : Error :=
  mkError "Cannot convert object to primitive value".

(** [`${v}`] for a property that may be missing. *)
Definition template (v : option JSON) : Promise string :=
  match v with
  | None => Resolved "undefined"
  | Some v =>
      match to_string v with
      | Some s => Resolved s
      | None => Rejected not_primitive
      end
  end.

(** [texts.join(sep)] on an array of values: each element is converted,
    [null] to nothing, and the first conversion that throws ends the
    call. *)
Definition join_values (sep : string) (texts : list JSON) : Promise string :=
  match mapM (λ e, match e with JNull => Some "" | _ => to_string e end) texts with
  | Some parts => Resolved (JS.join sep parts)
  | None => Rejected not_primitive
  end.

(** [`${o.key}`] *)
Definition key_text (o : gmap string JSON) : Promise string :=
  template (o !! "key").

(** The loop of [getItemAnnotations] over the attachments. *)
Fixpoint attachment_annotations (fetch : Fetch) (B : t)
    (attachments : list ZoteroItem) : Promise (list ZoteroItem) :=
  match attachments with
  | [] => Resolved []
  | attachment :: rest =>
      if bool_decide (JS.prop_str attachment "contentType" = Some "application/pdf")
      then
        key ← key_text attachment;
        cs ← children fetch B key;
        annotations ← attachment_annotations fetch B rest;
        Resolved (filter (λ c, JS.prop_str c "itemType" = Some "annotation") cs
                  ++ annotations)%list
      else attachment_annotations fetch B rest
  end.

Definition getItemAnnotations (fetch : Fetch) (B : t) (key : string)
  : Promise (list ZoteroItem) :=
  attachments ← getItemAttachments fetch B key;
  attachment_annotations fetch B attachments.

(** [data.content] of a full-text answer, whatever its type; reading it
    off [null] throws, and a number, text, truth value or array has no such
    property. *)
Definition fulltext_content (data : JSON) : Promise (option JSON) :=
  match data with
  | JNull => Rejected (mkError "Cannot read properties of null (reading 'content')")
  | JObj o => Resolved (o !! "content")
  | _ => Resolved None
  end.

(** One guarded full-text request for the key that [key] yields: the
    content when it is truthy, and nothing when it is falsy or missing or
    when the key or the request fails. *)
Definition fulltext_of (fetch : Fetch) (B : t) (key : Promise string)
  : Promise (option JSON) :=
  try_catch
    (key ← key;
     '(data, _) ← request fetch B ("/" ++ libraryPrefix B ++ "/items/" ++ key ++ "/fulltext") ∅;
     content ← fulltext_content data;
     Resolved (if truthy_value content then content else None))
    (λ _, Resolved None).

Fixpoint attachment_fulltexts (fetch : Fetch) (B : t)
    (attachments : list (gmap string JSON)) : Promise (list JSON) :=
  match attachments with
  | [] => Resolved []
  | attachment :: rest =>
      content ←
        (if bool_decide (JS.prop_str attachment "contentType" = Some "application/pdf")
         then fulltext_of fetch B (key_text attachment)
         else Resolved None);
      texts ← attachment_fulltexts fetch B rest;
      Resolved (match content with Some c => c :: texts | None => texts end)
  end.

(** The separator between the texts of an item. *)
Definition text_separator : string := LocalBackend.text_separator.

Definition getItemFullText (fetch : Fetch) (B : t) (key : string)
  : Promise (option string) :=
  try_catch
    (item ← getItem fetch B key None;
     match item with
     | None => Resolved None
     | Some item =>
         (* Get fulltext for PDF attachments *)
         texts ← attachment_fulltexts fetch B (JS.prop_objects item "attachments");
         (* Also try the item itself if it's an attachment *)
         own ←
           (if bool_decide (JS.prop_str item "itemType" = Some "attachment")
            then fulltext_of fetch B (Resolved key)
            else Resolved None);
         let texts := (texts ++ match own with Some c => [c] | None => [] end)%list in
         match texts with
         | [] => Resolved None
         | _ => text ← join_values text_separator texts; Resolved (Some text)
         end
     end)
    (λ _, Resolved None).

(** The characters of [[A-Z0-9]]. *)
Definition is_key_char (c : ascii) : bool :=
  let n := N_of_ascii c in
  ((65 <=? n) && (n <=? 90) || (48 <=? n) && (n <=? 57))%N.

Fixpoint all_key_chars (s : string) : bool :=
  match s with
  | EmptyString => true
  | String c s' => is_key_char c && all_key_chars s'
  end.

(** What is left of [s] after the prefix [p], if [s] starts with it. *)
Fixpoint strip_prefix (p s : string) : option string :=
  match p, s with
  | EmptyString, _ => Some s
  | String a p', String b s' => if Ascii.eqb a b then strip_prefix p' s' else None
  | String _ _, EmptyString => None
  end.

(** [uri.match(/\/items\/([A-Z0-9]+)$/)]: the captured key, from the
    leftmost position at which the pattern matches. *)
Fixpoint relation_key (uri : string) : option string :=
  match strip_prefix "/items/" uri with
  | Some (String c k) =>
      if all_key_chars (String c k) then Some (String c k)
      else match uri with
           | EmptyString => None
           | String _ rest => relation_key rest
           end
  | _ => match uri with
         | EmptyString => None
         | String _ rest => relation_key rest
         end
  end.

(** The loop of [getRelatedItems] over the relation URIs. *)
Fixpoint related_items (fetch : Fetch) (B : t) (uris : list JSON)
  : Promise (list ZoteroItem) :=
  match uris with
  | [] => Resolved []
  | uri :: rest =>
      match uri with
      | JStr u =>
          match relation_key u with
          | Some k =>
              relatedItem ← getItem fetch B k (Some false);
              relatedItems ← related_items fetch B rest;
              Resolved (match relatedItem with
                        | Some it => it :: relatedItems
                        | None => relatedItems
                        end)
          | None => related_items fetch B rest
          end
      | JNull => Rejected (mkError "Cannot read properties of null (reading 'match')")
      | _ => Rejected (mkError "uri.match is not a function")
      end
  end.

(** Whether a JSON value is falsy. *)
Definition falsy (j : JSON) : bool :=
  match j with
  | JNull | JBool false | JNum 0 | JStr "" => true
  | _ => false
  end.

Definition getRelatedItems (fetch : Fetch) (B : t) (key : string)
  : Promise (list ZoteroItem) :=
  item ← getItem fetch B key (Some false);
  match item ≫= λ it, it !! "relations" with
  | Some (JObj relations) =>
      (* Relations are stored as dc:relation URIs *)
      match relations !! "dc:relation" with
      | Some relatedUris =>
          if falsy relatedUris then Resolved []
          else related_items fetch B
                 (match relatedUris with JArr l => l | u => [u] end)
      | None => Resolved []
      end
  | _ => Resolved []
  end.

(** [getBibliography]; [text] reads the body of a response as text. *)
Definition getBibliography (fetch : Fetch) (text : Response → Promise string)
    (B : t) (keys : list string) (style : option string) : Promise string :=
  (* Use format=bib endpoint for bibliography *)
  let keyList := JS.join "," keys in
  response ←
    fetch (apiBaseUrl (config B) ++ "/" ++ libraryPrefix B ++ "/items?itemKey="
           ++ keyList ++ "&format=bib&style=" ++ default "apa" style)
          (headers B);
  if negb (ok response)
  then Rejected (mkError ("Failed to generate bibliography: "
                          ++ string_of_Z (status response)))
  else text response.

Definition searchFullText (fetch : Fetch) (B : t) (query : string) (limit : option Z)
  : Promise (list ZoteroItem) :=
  let params :=
    [ ("format", PStr "json"); ("q", PStr query); ("qmode", PStr "everything");
      ("limit", PNum (default 25 limit)) ] in
  '(data, _) ← request fetch B ("/" ++ libraryPrefix B ++ "/items"
                                ++ buildQueryString params) ∅;
  map_items data.

End WebAPIBackend.

(** ** config.ts: validation and detection of the data directory *)

Module Config.

Section WithHost.

(** Node's [path.join] and [fs.existsSync]; [isDirectory p] is
    [fs.statSync(p).isDirectory()] and [readdirSync] the directory listing,
    both of which may throw. *)
Variable path_join : list string → string.
Variable existsSync : string → bool.
Variable isDirectory : string → Promise bool.
Variable readdirSync : string → Promise (list string).

Definition validateConfig (config : ZoteroConfig) : list string :=
  match mode config with
  | WEB =>
      app
        (if negb (JS.truthy (apiKey config))
         then ["ZOTERO_API_KEY is required for web mode"] else [])
        (if negb (JS.truthy (userId config)) && negb (JS.truthy (groupId config))
         then ["ZOTERO_USER_ID or ZOTERO_GROUP_ID is required for web mode"]
         else [])
  | LOCAL =>
      let dir := default "" (dataDir config) in
      if negb (JS.truthy (dataDir config))
      then ["Could not detect Zotero data directory. Set ZOTERO_DATA_DIR"]
      else if negb (existsSync dir)
      then ["Zotero data directory does not exist: " ++ dir]
      else if negb (existsSync (path_join [dir; "zotero.sqlite"]))
      then ["zotero.sqlite not found in: " ++ dir]
      else []
  end.

(** The candidate directories of [detectZoteroDataDir]. *)
Definition possiblePaths (platform home : string) (APPDATA : option string)
  : list string :=
  if String.eqb platform "win32" then
    [ path_join [home; "Zotero"];
      path_join [JS.or_str APPDATA ""; "Zotero"; "Zotero"; "Profiles"] ]
  else if String.eqb platform "darwin" then
    [ path_join [home; "Zotero"];
      path_join [home; "Library"; "Application Support"; "Zotero"; "Profiles"] ]
  else
    [ path_join [home; "Zotero"];
      path_join [home; ".zotero"; "zotero"] ].

(** The loop over the entries of a profile directory; a rejection is an
    exception of [statSync], which the enclosing [try] catches. *)
Fixpoint scan_profiles (p : string) (entries : list string) : Promise (option string) :=
  match entries with
  | [] => Resolved None
  | entry :: rest =>
      let profilePath := path_join [p; entry] in
      isDir ← isDirectory profilePath;
      if isDir : bool then
        let zoteroDir := path_join [profilePath; "zotero"] in
        if existsSync (path_join [zoteroDir; "zotero.sqlite"])
        then Resolved (Some zoteroDir)
        else scan_profiles p rest
      else scan_profiles p rest
  end.

(** The loop over the candidate directories. *)
Fixpoint detect_in (paths : list string) : Promise (option string) :=
  match paths with
  | [] => Resolved None
  | p :: rest =>
      if existsSync p then
        (* Direct data dir *)
        if existsSync (path_join [p; "zotero.sqlite"]) then Resolved (Some p)
        else
          (* Profile-based structure *)
          isDir ← isDirectory p;
          if isDir : bool then
            match (entries ← readdirSync p; scan_profiles p entries) with
            | Resolved (Some zoteroDir) => Resolved (Some zoteroDir)
            | Resolved None => detect_in rest
            | Rejected _ => detect_in rest
            end
          else detect_in rest
      else detect_in rest
  end.

Definition detectZoteroDataDir (platform home : string) (APPDATA : option string)
  : Promise (option string) :=
  detect_in (possiblePaths platform home APPDATA).

End WithHost.

End Config.

(** ** backends/types.ts: formatting helpers *)

Module TypeModel.

(** [getCreatorDisplayName] *)
Definition getCreatorDisplayName (creator : gmap string JSON) : string :=
  if JS.truthy (JS.prop_str creator "name")
  then default "" (JS.prop_str creator "name")
  else
    JS.join " "
      (filter (λ part, Is_true (JS.truthy (Some part)))
         (omap id [JS.prop_str creator "firstName"; JS.prop_str creator "lastName"])).

(** [formatCreators] *)
Definition formatCreators (creators : option (list (gmap string JSON))) : string :=
  match creators with
  | None | Some [] => ""
  | Some creators =>
      let authors :=
        filter (λ c, JS.prop_str c "creatorType" = Some "author") creators in
      let toFormat := match authors with [] => creators | _ => authors end in
      let names := getCreatorDisplayName <$> toFormat in
      if (3 <? Z.of_nat (List.length names))
      then default "undefined" (head names) ++ " et al."
      else JS.join ", " names
  end.

Definition is_digit (c : ascii) : bool :=
  match JS.digit c with Some _ => true | None => false end.

(** Four digits at the head of [s]. *)
Definition year_at (s : string) : option string :=
  match s with
  | String a (String b (String c (String d _))) =>
      if is_digit a && is_digit b && is_digit c && is_digit d
      then Some (String a (String b (String c (String d ""))))
      else None
  | _ => None
  end.

(** [s.match(/\d{4}/)]: the first four consecutive digits. *)
Fixpoint match_year (s : string) : option string :=
  match year_at s with
  | Some y => Some y
  | None => match s with
            | EmptyString => None
            | String _ s' => match_year s'
            end
  end.

(** [s.replace(/\s+/g, "")], for ASCII white space. *)
Fixpoint remove_spaces (s : string) : string :=
  match s with
  | EmptyString => ""
  | String c s' => if JS.is_space c then remove_spaces s' else String c (remove_spaces s')
  end.

(** [generateCitationKey] *)
Definition generateCitationKey (item : ZoteroItem) : string :=
  let author :=
    match item !! "creators" with
    | Some (JArr (JObj first :: _)) =>
        JS.or_str (JS.prop_str first "lastName")
                  (JS.or_str (JS.prop_str first "name") "")
    | _ => ""
    end in
  let year :=
    if JS.truthy (JS.prop_str item "date")
    then default "" (match_year (default "" (JS.prop_str item "date")))
    else "" in
  remove_spaces (LocalBackend.toLowerCase (author ++ year)).

(** [s.replace(/<[^>]+>/g, "")]: [pending] is the text read since an
    unmatched [<]. *)
Fixpoint strip_tags_from (pending : option string) (s : string) : string :=
  match s with
  | EmptyString => default "" pending
  | String c s' =>
      match pending with
      | None =>
          if Ascii.eqb c "<" then strip_tags_from (Some "<") s'
          else String c (strip_tags_from None s')
      | Some p =>
          if Ascii.eqb c ">" then
            if String.eqb p "<" then "<>" ++ strip_tags_from None s'
            else strip_tags_from None s'
          else strip_tags_from (Some (p ++ String c "")) s'
      end
  end.

Definition strip_tags (s : string) : string := strip_tags_from None s.

(** [s.replace(/pat/g, by)] for a literal, non-empty [pat]; [skip] counts
    the characters of a match still to pass over. *)
Fixpoint replace_from (pat by_ : string) (skip : nat) (s : string) : string :=
  match s with
  | EmptyString => ""
  | String c s' =>
      match skip with
      | S k => replace_from pat by_ k s'
      | O =>
          if JS.startsWith pat s
          then by_ ++ replace_from pat by_ (String.length pat - 1) s'
          else String c (replace_from pat by_ O s')
      end
  end.

Definition replace_all (pat by_ : string) (s : string) : string :=
  replace_from pat by_ O s.

(** [noteToPlainText] *)
Definition noteToPlainText (html : string) : string :=
  JS.trim
    (replace_all "&#39;" "'"
    (replace_all "&quot;" (String (ascii_of_N 34) "")
    (replace_all "&gt;" ">"
    (replace_all "&lt;" "<"
    (replace_all "&amp;" "&"
    (replace_all "&nbsp;" " "
    (strip_tags html))))))).

End TypeModel.

(** ** Record updates and sample libraries *)

Definition with_limit (l : option Z) (f : SearchFilters) : SearchFilters :=
  mkFilters (itemType f) (tags f) (collectionKey f) (sinceVersion f)
            (includeTrashed f) (sort f) (direction f) l (start f).

Definition with_start (o : option Z) (f : SearchFilters) : SearchFilters :=
  mkFilters (itemType f) (tags f) (collectionKey f) (sinceVersion f)
            (includeTrashed f) (sort f) (direction f) (limit f) o.

Definition with_tags (T : list string) (f : SearchFilters) : SearchFilters :=
  mkFilters (itemType f) (Some T) (collectionKey f) (sinceVersion f)
            (includeTrashed f) (sort f) (direction f) (limit f) (start f).

Definition with_maxLimit (m : Z) (c : ZoteroConfig) : ZoteroConfig :=
  mkConfig (mode c) (apiKey c) (userId c) (groupId c) (apiBaseUrl c) (dataDir c)
           (defaultLimit c) m (cacheEnabled c) (cacheTtl c) (extractPdfText c)
           (maxFulltextLength c).

Definition local_with_config (c : ZoteroConfig) (B : LocalBackend.t) : LocalBackend.t :=
  LocalBackend.mk (LocalBackend.db B) c (LocalBackend.storagePath B)
                  (LocalBackend.maps B).

Definition web_with_config (c : ZoteroConfig) (B : WebAPIBackend.t) : WebAPIBackend.t :=
  WebAPIBackend.mk c (WebAPIBackend.headers B) (WebAPIBackend.libraryPrefix B).

(** A key is soft-deleted in a local library when every row of [items]
    carrying it is listed in [deletedItems]. *)
Definition soft_deleted (d : Db.t) (key : string) : Prop :=
  ∀ i, i ∈ Db.items d → Db.key i = key → Db.itemID i ∈ Db.deletedItems d.

Module Sample.

(** The configuration that [loadConfig] builds by default, for user 1. *)
Definition web_config : ZoteroConfig :=
  mkConfig WEB (Some "secret") (Some "1") None "https://api.zotero.org" None
           25 100 true 300 true 100000.

Definition local_config : ZoteroConfig :=
  mkConfig LOCAL None None None "https://api.zotero.org" (Some "/home/u/Zotero")
           25 100 true 300 true 100000.

Definition item_types : list (Z * string) :=
  [(1, "journalArticle"); (2, "attachment"); (3, "note"); (4, "annotation");
   (5, "book")].

(** Three nested collections COL1 > COL2 > COL3 holding one article each,
    and a fourth article in the trash. *)
Definition library : Db.t :=
  Db.mk
    [ Db.mkItem 1 "ITEM1" 1 10 "2024-01-01 10:00:00" "2024-01-04 10:00:00";
      Db.mkItem 2 "ITEM2" 1 11 "2024-01-02 10:00:00" "2024-01-03 10:00:00";
      Db.mkItem 3 "ITEM3" 5 12 "2024-01-03 10:00:00" "2024-01-02 10:00:00";
      Db.mkItem 4 "DEL001" 1 13 "2024-01-04 10:00:00" "2024-01-01 10:00:00" ]
    [4]
    item_types
    [(1, "title")]
    [ Db.mkItemDatum 1 1 1; Db.mkItemDatum 2 1 2; Db.mkItemDatum 3 1 3;
      Db.mkItemDatum 4 1 4 ]
    [(1, "First"); (2, "Second"); (3, "Third"); (4, "Trashed")]
    [ Db.mkCreator 1 (Some "Ada") (Some "Lovelace") ]
    [ Db.mkItemCreator 1 1 1 0 ]
    [(1, "author")]
    [(1, "methodology"); (2, "survey")]
    [ Db.mkItemTag 1 1 0; Db.mkItemTag 2 1 0; Db.mkItemTag 2 2 0 ]
    [ Db.mkCollection 1 "COL1" "Top" None 1;
      Db.mkCollection 2 "COL2" "Middle" (Some 1) 1;
      Db.mkCollection 3 "COL3" "Leaf" (Some 2) 1 ]
    [(1, 1); (2, 2); (3, 3)]
    [] [] [].

Definition local : LocalBackend.t :=
  LocalBackend.mk library local_config (Some "/home/u/Zotero/storage")
    (LocalBackend.loadMappings library LocalBackend.no_mappings).

(** A library of [n] live articles. *)
Definition articles (n : nat) : Db.t :=
  Db.mk
    ((λ k, Db.mkItem k ("K" ++ pretty k) 1 1 "2024-01-01 10:00:00"
                     "2024-01-01 10:00:00") <$> seqZ 1 (Z.of_nat n))
    [] item_types [] [] [] [] [] [] [] [] [] [] [] [] [].

Definition local_articles (n : nat) : LocalBackend.t :=
  LocalBackend.mk (articles n) local_config (Some "/home/u/Zotero/storage")
    (LocalBackend.loadMappings (articles n) LocalBackend.no_mappings).

Definition web : WebAPIBackend.t := WebAPIBackend.new web_config.

(** An item as the web API sends it. *)
Definition api_item (key : string) (version : Z) (data : list (string * JSON)) : JSON :=
  JObj (list_to_map
    [("key", JStr key); ("version", JNum version); ("data", JObj (list_to_map data))]).

Definition api_tags (names : list string) : JSON :=
  JArr ((λ n, JObj (list_to_map [("tag", JStr n)])) <$> names).

Definition article (key : string) (names : list string) : JSON :=
  api_item key 1 [("key", JStr key); ("itemType", JStr "journalArticle");
                  ("tags", api_tags names)].

(** A [200 OK] answer with the two pagination headers. *)
Definition answer (total : string) (link : option string) (body : JSON)
  : WebAPIBackend.Response :=
  WebAPIBackend.mkResponse 200 "OK"
    (λ h, if String.eqb h "Total-Results" then Some total
          else if String.eqb h "Link" then link else None)
    (Resolved body).

Definition not_found : WebAPIBackend.Response :=
  WebAPIBackend.mkResponse 404 "Not Found" (λ _, None) (Resolved JNull).

(** A service that knows no item at all. *)
Definition empty_service : WebAPIBackend.Fetch := λ _ _, Resolved not_found.

(** A service holding X (tag a), Y (tags a, b) and Z (tag b): asked for the
    tag expression [a || b] it answers with the items carrying either tag;
    it knows no other URL. *)
Definition tag_service : WebAPIBackend.Fetch := λ url _,
  if String.eqb url
       "https://api.zotero.org/users/1/items/top?format=json&limit=25&start=0&sort=dateModified&direction=desc&tag=a+%7C%7C+b"
  then Resolved (answer "3" None
         (JArr [article "X" ["a"]; article "Y" ["a"; "b"]; article "Z" ["b"]]))
  else Resolved not_found.

(** A service holding three items, asked for the last page of size one. *)
Definition paging_service : WebAPIBackend.Fetch := λ url _,
  if String.eqb url
       "https://api.zotero.org/users/1/items/top?format=json&limit=1&start=2&sort=dateModified&direction=desc"
  then Resolved (answer "3" None (JArr [article "Z" ["b"]]))
  else Resolved not_found.

(** A service holding 101 articles that answers a request for a page of
    101 with all of them; it knows no other URL. *)
Definition wide_service : WebAPIBackend.Fetch := λ url _,
  if String.eqb url
       "https://api.zotero.org/users/1/items/top?format=json&limit=101&start=0&sort=dateModified&direction=desc"
  then Resolved (answer "101" None
         (JArr ((λ k, article ("K" ++ pretty k) []) <$> seqZ 1 101)))
  else Resolved not_found.

(** A service that throttles every request, advertising a retry interval. *)
Definition throttling_service (retryAfter : string) : WebAPIBackend.Fetch := λ _ _,
  Resolved (WebAPIBackend.mkResponse 429 "Too Many Requests"
              (λ h, if String.eqb h "Retry-After" then Some retryAfter else None)
              (Resolved JNull)).

(** A service whose item DEL001 is in the trash: it still serves the item,
    marked [deleted], and serves no children for it. *)
Definition trash_service : WebAPIBackend.Fetch := λ url _,
  if String.eqb url "https://api.zotero.org/users/1/items/DEL001"
  then Resolved (answer "1" None
         (api_item "DEL001" 13 [("key", JStr "DEL001");
                                ("itemType", JStr "journalArticle");
                                ("deleted", JNum 1)]))
  else if String.eqb url "https://api.zotero.org/users/1/items/DEL001/children"
  then Resolved (answer "0" None (JArr []))
  else Resolved not_found.

End Sample.

(** The rows that the local [searchItems] turns into items. *)
Definition local_page (B : LocalBackend.t) (q : option string)
    (f : option SearchFilters) : list Db.item :=
  SQL.limit_offset
    (JS.or_num (f ≫= limit) (defaultLimit (LocalBackend.config B)))
    (JS.or_num (f ≫= start) 0)
    (SQL.order_by_text (LocalBackend.search_sort_column f)
       (LocalBackend.search_direction f)
       (remove_dups
          (filter (λ i, Is_true (LocalBackend.search_where (LocalBackend.db B) q f i))
                  (Db.items (LocalBackend.db B))))).

(** The URL of the single-item fetch. *)
Definition item_url (W : WebAPIBackend.t) (key : string) : string :=
  apiBaseUrl (WebAPIBackend.config W)
  ++ ("/" ++ WebAPIBackend.libraryPrefix W ++ "/items/" ++ key).

(** ** A second sample library, with child items and the further tables *)

Module Shelf.

(** ITEM1 (with a PDF attachment ATT1, a note NOTE1 and an annotation ANN1
    on the attachment), ITEM2, and DEL001 in the trash with its attachment
    ATT2; COL2 lies in COL1, COL3 lies in the deleted COL9. *)
Definition library : Db.t :=
  Db.mk
    [ Db.mkItem 1 "ITEM1" 1 10 "2024-01-01 10:00:00" "2024-01-04 10:00:00";
      Db.mkItem 2 "ITEM2" 5 11 "2024-01-02 10:00:00" "2024-01-03 10:00:00";
      Db.mkItem 4 "DEL001" 1 13 "2024-01-04 10:00:00" "2024-01-01 10:00:00";
      Db.mkItem 5 "ATT1" 2 14 "2024-01-01 11:00:00" "2024-01-01 11:00:00";
      Db.mkItem 6 "NOTE1" 3 15 "2024-01-01 12:00:00" "2024-01-01 12:00:00";
      Db.mkItem 7 "ANN1" 4 16 "2024-01-01 13:00:00" "2024-01-01 13:00:00";
      Db.mkItem 8 "ATT2" 2 17 "2024-01-04 11:00:00" "2024-01-04 11:00:00" ]
    [4]
    Sample.item_types
    [(1, "title"); (2, "date")]
    [ Db.mkItemDatum 1 1 1; Db.mkItemDatum 2 1 2; Db.mkItemDatum 1 2 3 ]
    [(1, "First"); (2, "Second"); (3, "2021-05-01")]
    [ Db.mkCreator 1 (Some "Ada") (Some "Lovelace") ]
    [ Db.mkItemCreator 1 1 1 0 ]
    [(1, "author")]
    [(1, "methodology"); (2, "survey"); (3, "trash-only")]
    [ Db.mkItemTag 1 1 0; Db.mkItemTag 2 1 0; Db.mkItemTag 2 2 0;
      Db.mkItemTag 4 3 0; Db.mkItemTag 6 2 0 ]
    [ Db.mkCollection 1 "COL1" "Top" None 1;
      Db.mkCollection 2 "COL2" "Middle" (Some 1) 1;
      Db.mkCollection 3 "COL3" "Orphan" (Some 9) 1;
      Db.mkCollection 9 "COL9" "Gone" None 1 ]
    [(1, 1); (2, 2)]
    [ Db.mkItemNote 6 (Some 1) "<p>Read &amp; cite</p>" ]
    [ Db.mkItemAttachment 5 (Some 1) (Some "application/pdf")
        (Some "storage:paper.pdf") 0;
      Db.mkItemAttachment 8 (Some 4) (Some "application/pdf")
        (Some "storage:old.pdf") 0 ]
    [ Db.mkItemAnnotation 7 5 "highlight" (Some "key passage") None None
        (Some "3") None ].

Definition tables : Db.ext :=
  Db.mkExt [9] (Some [(1, 2); (1, 4)])
    (Some [(5, "the indexed text of the paper"); (8, "text of a trashed paper")])
    [5; 8].

(** The same library with the two tables as Zotero creates them. *)
Definition stock_tables : Db.ext := Db.mkExt [9] None None [5; 8].

Definition local : LocalBackend.t :=
  LocalBackend.mk library Sample.local_config (Some "/home/u/Zotero/storage")
    (LocalBackend.loadMappings library LocalBackend.no_mappings).


(** A file system holding the data directory of the sample configuration. *)
Definition existsSync : string → bool := λ p,
  bool_decide (p ∈ ["/home/u/Zotero"; "/home/u/Zotero/zotero.sqlite";
                    "/home/u/Zotero/storage/ATT1/paper.pdf"]).

(** The relations of ITEM1 as the service below sends them, and the item
    that the web backend makes of the answer. *)
Definition related_relations : gmap string JSON :=
  list_to_map
    [("dc:relation",
       JArr [JStr "http://zotero.org/users/1/items/"; JStr "urn:isbn:0131103628"])].

Definition related_item : ZoteroItem :=
  list_to_map [("itemType", JStr "journalArticle");
               ("relations", JObj related_relations)]
  ∪ JS.obj [("key", Some (JStr "ITEM1")); ("version", Some (JNum 1))].

(** A service whose item ITEM1 is related to two things that are no
    item URIs. *)
Definition relations_service : WebAPIBackend.Fetch := λ url _,
  if String.eqb url "https://api.zotero.org/users/1/items/ITEM1"
  then Resolved (Sample.answer "1" None
         (Sample.api_item "ITEM1" 1
            [("itemType", JStr "journalArticle");
             ("relations", JObj related_relations)]))
  else Resolved Sample.not_found.

(** A service whose attachment ATT1 has no children and whose full-text
    answer carries the given [content]. *)
Definition fulltext_service (content : JSON) : WebAPIBackend.Fetch := λ url _,
  if String.eqb url "https://api.zotero.org/users/1/items/ATT1"
  then Resolved (Sample.answer "1" None
         (Sample.api_item "ATT1" 14 [("itemType", JStr "attachment")]))
  else if String.eqb url "https://api.zotero.org/users/1/items/ATT1/children"
  then Resolved (Sample.answer "0" None (JArr []))
  else if String.eqb url "https://api.zotero.org/users/1/items/ATT1/fulltext"
  then Resolved (Sample.answer "1" None (JObj (list_to_map [("content", content)])))
  else Resolved Sample.not_found.

(** A pdf-parse pipeline that finds no text. *)
Definition parse : string → Promise (option string) := λ _, Resolved (Some "").

End Shelf.

(** Whether every character of a string satisfies a test. *)
Fixpoint string_forall (P : ascii → bool) (s : string) : bool :=
  match s with
  | EmptyString => true
  | String c s' => P c && string_forall P s'
  end.

(** The characters that [URLSearchParams] leaves in a rendered name or
    value: letters, digits, [* - . _], [+] for a space and [%] with the
    digits of an escape. *)
Definition is_query_safe (c : ascii) : bool :=
  let n := N_of_ascii c in
  ((48 <=? n) && (n <=? 57) || (65 <=? n) && (n <=? 90) || (97 <=? n) && (n <=? 122)
   || (n =? 42) || (n =? 45) || (n =? 46) || (n =? 95) || (n =? 43) || (n =? 37))%N.

Definition is_upper (c : ascii) : bool :=
  let n := N_of_ascii c in ((65 <=? n) && (n <=? 90))%N.

(** The parameters that [buildQueryString] keeps: those whose value is
    neither [undefined] nor the empty string. *)
Definition kept_param (kv : string * WebAPIBackend.Param) : bool :=
  match kv.2 with
  | WebAPIBackend.PUndefined | WebAPIBackend.PStr "" => false
  | _ => true
  end.

(** What the evaluations on the samples read off a call: the number and
    the keys of the items of a search that resolves, the key and the
    [deleted] mark of an item that is found, and the keys of a list of
    items that resolves. *)
Definition page_size (p : Promise SearchResult) : option nat :=
  match p with
  | Resolved r => Some (List.length (items r))
  | Rejected _ => None
  end.

Definition page_keys (p : Promise SearchResult) : option (list (option string)) :=
  match p with
  | Resolved r => Some (item_key <$> items r)
  | Rejected _ => None
  end.

Definition found_marks (p : Promise (option ZoteroItem))
  : option (option string * option JSON) :=
  match p with
  | Resolved (Some it) => Some (item_key it, it !! "deleted")
  | _ => None
  end.

Definition list_keys (p : Promise (list ZoteroItem)) : option (list (option string)) :=
  match p with
  | Resolved its => Some (item_key <$> its)
  | Rejected _ => None
  end.

(** A string without the character [a]. *)
Definition lacks (a : ascii) (s : string) : bool :=
  string_forall (λ c, negb (Ascii.eqb c a)) s.

(** The creators that [formatCreators] takes for authors. *)
Definition authors_of (creators : list (gmap string JSON)) : list (gmap string JSON) :=
  filter (λ c, JS.prop_str c "creatorType" = Some "author") creators.

(** The number of slashes in a string. *)
Fixpoint slashes (s : string) : nat :=
  match s with
  | EmptyString => 0
  | String c s' => (if Ascii.eqb c "/" then 1 else 0) + slashes s'
  end.

(** ** Properties of the cache *)

Section CacheFacts.
Context {T : Type}.
Implicit Types (c : Cache.t T) (k : string) (v : T).

Lemma cache_get_fresh c k e now :
  Cache.store c !! k = Some e → now ≤ Cache.expires e →
  Cache.get now k c = (Some (Cache.value e), c).
Proof.
  intros Hk Hle. unfold Cache.get. rewrite Hk.
  destruct (Z.gtb_spec now (Cache.expires e)); [lia | done].
Qed.

Lemma cache_get_expired c k e now :
  Cache.store c !! k = Some e → Cache.expires e < now →
  Cache.get now k c = (None, Cache.mk (delete k (Cache.store c)) (Cache.ttl c)).
Proof.
  intros Hk Hlt. unfold Cache.get. rewrite Hk.
  destruct (Z.gtb_spec now (Cache.expires e)); [done | lia].
Qed.

Lemma cache_get_absent c k now :
  Cache.store c !! k = None → Cache.get now k c = (None, c).
Proof. intros Hk. unfold Cache.get. by rewrite Hk. Qed.

Lemma cache_set_lookup c k v now :
  Cache.store (Cache.set now k v c) !! k
  = Some (Cache.mkEntry v (now + Cache.ttl c)).
Proof. apply lookup_insert_eq. Qed.

(** [cleanup] drops what [get] would drop: afterwards every key answers as
    it did before. *)
Lemma cache_cleanup_get c k now :
  (Cache.get now k (Cache.cleanup now c)).1 = (Cache.get now k c).1.
Proof.
  unfold Cache.get, Cache.cleanup. cbn [Cache.store].
  destruct (Cache.store c !! k) as [e|] eqn:Hk.
  - destruct (Z.gtb_spec now (Cache.expires e)) as [Hgt | Hle].
    + rewrite (proj2 (map_lookup_filter_None _ _ _)); [done |].
      right. intros e' He'. rewrite Hk in He'. injection He' as <-. simpl. lia.
    + rewrite (map_lookup_filter_Some_2 _ _ k e Hk) by (simpl; lia).
      by destruct (Z.gtb_spec now (Cache.expires e)); [lia |].
  - rewrite (proj2 (map_lookup_filter_None _ _ _)); [done | by left].
Qed.

(** C7. Cache round trip.  After [set(k, v)] at clock reading [t0], with
    a TTL that is not negative, a [get(k)] at the same reading returns [v].
    As long as the entry of [k] is the one that this [set] stored, whatever
    happened to other keys meanwhile, a [get(k)] up to [t0 + ttl] returns
    [v], and a [get(k)] after the TTL has elapsed ([t0 + ttl < t]) returns
    absent and leaves a store without [k] and with the other keys as they
    were.  A later [set] of [k] at [t1] replaces the expiry by [t1 + ttl],
    whatever it was before. *)
Theorem cache_set_get_roundtrip c k v (t0 : Z) :
  0 ≤ Cache.ttl c →
  let c1 := Cache.set t0 k v c in
  Cache.get t0 k c1 = (Some v, c1)
  ∧ (∀ c' t, Cache.store c' !! k = Cache.store c1 !! k →
       (t ≤ t0 + Cache.ttl c → Cache.get t k c' = (Some v, c'))
       ∧ (t0 + Cache.ttl c < t →
            (Cache.get t k c').1 = None
            ∧ Cache.store (Cache.get t k c').2 !! k = None
            ∧ ∀ k', k' ≠ k →
                Cache.store (Cache.get t k c').2 !! k' = Cache.store c' !! k'))
  ∧ (∀ t1 v',
       Cache.store (Cache.set t1 k v' c1) !! k
         = Some (Cache.mkEntry v' (t1 + Cache.ttl c))
       ∧ ∀ t, t ≤ t1 + Cache.ttl c →
           (Cache.get t k (Cache.set t1 k v' c1)).1 = Some v').
Proof.
  intros Httl c1.
  pose proof (cache_set_lookup c k v t0) as Hk. fold c1 in Hk.
  split_and!.
  - rewrite (cache_get_fresh _ _ _ _ Hk); [done | simpl; lia].
  - intros c' t Hsame. rewrite Hk in Hsame. split.
    + intros Ht. rewrite (cache_get_fresh _ _ _ _ Hsame); [done | simpl; lia].
    + intros Ht.
      rewrite (cache_get_expired _ _ _ _ Hsame) by (simpl; lia).
      split_and!; [done | apply lookup_delete_eq |].
      intros k' Hne. simpl. by rewrite lookup_delete_ne.
  - intros t1 v'. split; [apply (cache_set_lookup c1 k v' t1) |].
    intros t Ht.
    rewrite (cache_get_fresh _ _ _ _ (cache_set_lookup c1 k v' t1));
      [done | simpl; lia].
Qed.

(** C9. [has(k)] is [get(k)] with the value forgotten: it answers [true]
    exactly when [get(k)] returns a value, that is when [k] is stored with
    an expiry not yet passed; it leaves the cache as [get(k)] leaves it,
    so on an entry whose TTL has elapsed it answers [false] and deletes
    the entry. *)
Theorem cache_has_as_get c k (now : Z) :
  (Cache.has now k c).1 = bool_decide (is_Some (Cache.get now k c).1)
  ∧ (Cache.has now k c).2 = (Cache.get now k c).2
  ∧ ((Cache.has now k c).1 = true
     ↔ ∃ e, Cache.store c !! k = Some e ∧ now ≤ Cache.expires e)
  ∧ (∀ e, Cache.store c !! k = Some e → Cache.expires e < now →
       Cache.has now k c
         = (false, Cache.mk (delete k (Cache.store c)) (Cache.ttl c))
       ∧ Cache.store (Cache.has now k c).2 !! k = None).
Proof.
  split_and!.
  - unfold Cache.has. destruct (Cache.get now k c) as [[x|] c']; done.
  - unfold Cache.has. by destruct (Cache.get now k c) as [[x|] c'].
  - unfold Cache.has, Cache.get.
    destruct (Cache.store c !! k) as [e|] eqn:Hk; simpl.
    + destruct (Z.gtb_spec now (Cache.expires e)); simpl; split.
      * done.
      * intros (e' & [= <-] & ?). lia.
      * intros _. exists e. split; [done | lia].
      * done.
    + split; [done | by intros (e & ? & _)].
  - intros e Hk Hlt. unfold Cache.has.
    rewrite (cache_get_expired _ _ _ _ Hk Hlt). split; [done |].
    simpl. apply lookup_delete_eq.
Qed.
End CacheFacts.

(** The round trip on a concrete cache: TTL 300 s, [set] at clock 1000. *)
Lemma cache_set_get_roundtrip_witness :
  0 ≤ Cache.ttl (Cache.new (T:=string) None)
  ∧ Cache.get 1000 "k" (Cache.set 1000 "k" "v" (Cache.new None))
    = (Some "v", Cache.set 1000 "k" "v" (Cache.new None)).
Proof.
  assert (Httl : 0 ≤ Cache.ttl (Cache.new (T:=string) None))
    by (vm_compute; discriminate).
  split; [exact Httl |].
  exact (proj1 (cache_set_get_roundtrip (Cache.new None) "k" "v" 1000 Httl)).
Defined.

(** ** Properties of the local backend *)

Section LocalFacts.
Implicit Types (B : LocalBackend.t) (d : Db.t) (q : option string)
               (f : option SearchFilters) (row : Db.item).

Lemma local_search_items B q f :
  ∃ r, LocalBackend.searchItems B q f = Resolved r
       ∧ items r = LocalBackend.search_item B <$> local_page B q f.
Proof. eexists. split; reflexivity. Qed.

Lemma limit_offset_subseteq {A} (l o : Z) (rows : list A) :
  SQL.limit_offset l o rows ⊆ rows.
Proof.
  unfold SQL.limit_offset. destruct (l <? 0).
  - apply subseteq_drop.
  - etrans; [apply subseteq_take | apply subseteq_drop].
Qed.

Lemma limit_offset_length {A} (l o : Z) (rows : list A) :
  0 ≤ l → Z.of_nat (List.length (SQL.limit_offset l o rows)) ≤ l.
Proof.
  intros Hl. unfold SQL.limit_offset.
  destruct (Z.ltb_spec l 0); [lia |].
  rewrite length_take. lia.
Qed.

Lemma limit_offset_nil {A} (l o : Z) : SQL.limit_offset l o (@nil A) = [].
Proof.
  unfold SQL.limit_offset. rewrite drop_nil. destruct (l <? 0); [done |].
  apply take_nil.
Qed.

Lemma order_by_text_nil {A} (col : A → string) dir :
  SQL.order_by_text col dir [] = [].
Proof. by destruct dir. Qed.

Lemma order_by_text_elem {A} (col : A → string) dir (rows : list A) x :
  x ∈ SQL.order_by_text col dir rows ↔ x ∈ rows.
Proof.
  unfold SQL.order_by_text. destruct dir; by rewrite merge_sort_Permutation.
Qed.

(** Every row of the page satisfies the assembled [WHERE] clause. *)
Lemma local_page_where B q f row :
  row ∈ local_page B q f →
  row ∈ Db.items (LocalBackend.db B)
  ∧ LocalBackend.search_where (LocalBackend.db B) q f row = true.
Proof.
  intros Hrow. apply limit_offset_subseteq in Hrow.
  rewrite order_by_text_elem, elem_of_remove_dups, list_elem_of_filter in Hrow.
  destruct Hrow as [Hw Hin].
  split; [done | by apply Is_true_true].
Qed.

Lemma search_where_tags d q f T row tag :
  f ≫= tags = Some T → tag ∈ T →
  LocalBackend.search_where d q f row = true →
  Db.itemID row ∈ LocalBackend.tag_hits d tag.
Proof.
  intros HT Htag Hw. unfold LocalBackend.search_where in Hw.
  rewrite HT in Hw.
  repeat (apply andb_prop in Hw as [Hw ?]).
  destruct T as [|t T]; [by apply elem_of_nil in Htag |].
  match goal with H : forallb _ _ = true |- _ => rename H into Hall end.
  rewrite forallb_forall in Hall.
  apply list_elem_of_In in Htag. specialize (Hall _ Htag).
  by apply bool_decide_eq_true in Hall.
Qed.

Lemma tag_hits_item_tags d itemId tag :
  itemId ∈ LocalBackend.tag_hits d tag →
  tag ∈ (LocalBackend.item_tags d itemId).*1.
Proof.
  unfold LocalBackend.tag_hits, LocalBackend.item_tags.
  intros Hin.
  apply list_elem_of_bind in Hin as (it & Hin & Hit).
  apply list_elem_of_bind in Hin as (t & Hin & Ht).
  apply list_elem_of_singleton in Hin as ->.
  apply list_elem_of_filter in Ht as [[Hid Hname] Ht].
  apply list_elem_of_fmap. exists (t.2, Db.it_type it). split; [by simpl |].
  apply list_elem_of_bind. exists it. split.
  - apply list_elem_of_bind. exists t. split; [apply list_elem_of_singleton; done |].
    apply list_elem_of_filter. done.
  - apply list_elem_of_filter. done.
Qed.

Lemma tag_name_loadItemTags B itemId :
  omap tag_name (LocalBackend.loadItemTags B itemId)
  = (LocalBackend.item_tags (LocalBackend.db B) itemId).*1.
Proof.
  unfold LocalBackend.loadItemTags.
  induction (LocalBackend.item_tags (LocalBackend.db B) itemId) as [|[n ty] l IH];
    [done |].
  cbn [map omap fmap list_fmap list_omap tag_name fst].
  change (omap tag_name (map ?g l)) with (omap tag_name (map g l)) in IH.
  unfold JS.obj; cbn [foldl snd fst].
  rewrite lookup_insert_ne by done. rewrite lookup_insert_eq.
  f_equal. exact IH.
Qed.

(** The names in [item.tags] of a result item are the tag names joined to
    its row. *)
Lemma search_item_tag_names B row :
  item_tag_names (LocalBackend.search_item B row)
  = (LocalBackend.item_tags (LocalBackend.db B) (Db.itemID row)).*1.
Proof.
  unfold item_tag_names, LocalBackend.search_item.
  rewrite lookup_insert_ne by done. rewrite lookup_insert_eq.
  apply tag_name_loadItemTags.
Qed.

(** Local [searchItems]: every returned item carries every tag of the
    filter. *)
Lemma local_search_tags_and B q f T :
  f ≫= tags = Some T →
  ∃ r, LocalBackend.searchItems B q f = Resolved r
       ∧ ∀ it tag, it ∈ items r → tag ∈ T → tag ∈ item_tag_names it.
Proof.
  intros HT. destruct (local_search_items B q f) as (r & Hr & Hitems).
  exists r. split; [done |]. intros it tag Hit Htag.
  rewrite Hitems in Hit. apply list_elem_of_fmap in Hit as (row & -> & Hrow).
  apply local_page_where in Hrow as [_ Hw].
  rewrite search_item_tag_names. apply tag_hits_item_tags.
  by eapply search_where_tags.
Qed.

Lemma filter_nil_intro {A} (P : A → Prop) `{∀ x, Decision (P x)} (l : list A) :
  (∀ x, x ∈ l → ¬ P x) → filter P l = [].
Proof.
  intros Hno. destruct (filter P l) as [|x l'] eqn:Heq; [done |].
  assert (x ∈ filter P l) as Hx by (rewrite Heq; left).
  apply list_elem_of_filter in Hx as [HP Hx]. by destruct (Hno x Hx).
Qed.

(** Local [searchItems] with one tag that no item carries: nothing is
    returned and the total is zero. *)
Lemma local_search_unmatched_tag B q f tag :
  f ≫= tags = Some [tag] →
  LocalBackend.tag_hits (LocalBackend.db B) tag = [] →
  ∃ r, LocalBackend.searchItems B q f = Resolved r
       ∧ items r = [] ∧ totalResults r = Num 0
       ∧ hasMore r = (JS.or_num (f ≫= start) 0 <? 0).
Proof.
  intros HT Hnone. eexists. split; [reflexivity |].
  assert (filter (λ i, Is_true (LocalBackend.search_where (LocalBackend.db B) q f i))
                 (Db.items (LocalBackend.db B)) = []) as Hnil.
  { apply filter_nil_intro. intros row _ Hw. apply Is_true_true in Hw.
    assert (tag ∈ [tag]) as Htag by left.
    pose proof (search_where_tags (LocalBackend.db B) q f [tag] row tag HT Htag Hw)
      as Hhit.
    rewrite Hnone in Hhit. by apply elem_of_nil in Hhit. }
  cbn [items totalResults hasMore]. rewrite Hnil.
  change (remove_dups (Db.itemID <$> [])) with (@nil Z).
  change (remove_dups (@nil Db.item)) with (@nil Db.item).
  rewrite order_by_text_nil, limit_offset_nil. cbn.
  rewrite Z.add_0_r. done.
Qed.

(** Local pagination: the cursor is the offset plus the page length, and
    [hasMore] compares it with the total. *)
Lemma local_search_pagination B q f :
  ∃ r total, LocalBackend.searchItems B q f = Resolved r
    ∧ totalResults r = Num total
    ∧ nextStart r = JS.or_num (f ≫= start) 0 + Z.of_nat (List.length (items r))
    ∧ hasMore r = (nextStart r <? total).
Proof. do 2 eexists. repeat split. Qed.

(** Local [getItem] on a soft-deleted key: not found. *)
Lemma local_getItem_soft_deleted path_join B key includeChildren :
  soft_deleted (LocalBackend.db B) key →
  LocalBackend.getItem path_join B key includeChildren = Resolved None.
Proof.
  intros Hdel. unfold LocalBackend.getItem.
  rewrite filter_nil_intro; [done |].
  intros i Hi [Hk Hlive]. by apply Hlive, Hdel.
Qed.

(** Local [getCollectionItems]: when the walk over the sub-collections
    returns, the keys it gathered are not used and the recursive call
    answers as the flat one does. *)
Lemma local_recursive_is_flat B key f keys :
  LocalBackend.getSubcollections (LocalBackend.walk_depth (LocalBackend.db B))
    (LocalBackend.db B) key [key] = Some keys →
  LocalBackend.getCollectionItems B key (Some true) f
  = LocalBackend.getCollectionItems B key None f.
Proof. intros Hwalk. unfold LocalBackend.getCollectionItems. by rewrite Hwalk. Qed.

End LocalFacts.

(** ** Properties of the web backend *)

Section WebFacts.
Implicit Types (fetch : WebAPIBackend.Fetch) (W : WebAPIBackend.t)
               (q : option string) (f : option SearchFilters).

Lemma string_of_Z_404 : WebAPIBackend.string_of_Z 404 = "404".
Proof. vm_compute. reflexivity. Qed.

(** [request] on a response that is not [ok]: a rejection whose message
    carries the retry interval for 429 and the status and status text
    otherwise. *)
Lemma web_request_not_ok fetch W endpoint resp :
  fetch (apiBaseUrl (WebAPIBackend.config W) ++ endpoint) (WebAPIBackend.headers W)
    = Resolved resp →
  WebAPIBackend.ok resp = false →
  WebAPIBackend.request fetch W endpoint ∅
  = Rejected (mkError
      (if WebAPIBackend.status resp =? 429
       then "Rate limited. Retry after "
            ++ JS.or_str (WebAPIBackend.headers_get resp "Retry-After") "5"
            ++ " seconds."
       else "API request failed: "
            ++ WebAPIBackend.string_of_Z (WebAPIBackend.status resp)
            ++ " " ++ WebAPIBackend.statusText resp)).
Proof.
  intros Hfetch Hok. unfold WebAPIBackend.request.
  rewrite (left_id_L ∅ (∪)), Hfetch. cbn [mbind promise_bind].
  rewrite Hok. cbn [negb]. by destruct (_ =? 429).
Qed.

(** A 404 on the single-item fetch: [getItem] resolves to not-found. *)
Lemma web_getItem_404 fetch W key includeChildren resp :
  fetch (item_url W key) (WebAPIBackend.headers W) = Resolved resp →
  WebAPIBackend.status resp = 404 →
  WebAPIBackend.getItem fetch W key includeChildren = Resolved None.
Proof.
  intros Hfetch Hst. unfold WebAPIBackend.getItem.
  rewrite (web_request_not_ok fetch W _ resp Hfetch)
    by (unfold WebAPIBackend.ok; by rewrite Hst).
  rewrite Hst, string_of_Z_404. reflexivity.
Qed.

(** Any other rejection of the single-item fetch is thrown again, unless
    its message happens to contain the text 404. *)
Lemma web_getItem_rethrows fetch W key includeChildren e :
  WebAPIBackend.request fetch W
    ("/" ++ WebAPIBackend.libraryPrefix W ++ "/items/" ++ key) ∅ = Rejected e →
  JS.includes "404" (message e) = false →
  WebAPIBackend.getItem fetch W key includeChildren = Rejected e.
Proof.
  intros Hreq Hmsg. unfold WebAPIBackend.getItem. rewrite Hreq.
  cbn [mbind promise_bind try_catch]. by rewrite Hmsg.
Qed.

(** Whatever the service answers, the cursor of a web result is the number
    of items on the page, and [hasMore] and the total are read off the
    response headers. *)
Lemma web_result_shape fetch W endpoint r :
  WebAPIBackend.fetchItemsWithTotal fetch W endpoint = Resolved r →
  nextStart r = Z.of_nat (List.length (items r))
  ∧ ∃ data headers,
      WebAPIBackend.request fetch W endpoint ∅ = Resolved (data, headers)
      ∧ WebAPIBackend.map_items data = Resolved (items r)
      ∧ hasMore r = JS.includes WebAPIBackend.rel_next (JS.or_str (headers "Link") "")
      ∧ totalResults r = JS.parseInt (JS.or_str (headers "Total-Results") "0").
Proof.
  unfold WebAPIBackend.fetchItemsWithTotal.
  destruct (WebAPIBackend.request fetch W endpoint ∅) as [[data headers]|e];
    cbn [mbind promise_bind]; [| done].
  destruct (WebAPIBackend.map_items data) as [its|e] eqn:Hits;
    cbn [mbind promise_bind]; [| done].
  intros [= <-]. split; [done |]. by exists data, headers.
Qed.

End WebFacts.

(** ** The testable properties of the specification *)

(** C1. Evaluated on the sample library, where COL1 holds ITEM1, its child
    COL2 holds ITEM2 and its grandchild COL3 holds ITEM3: the local
    recursive walk does find COL2 and COL3, but the query that follows is
    the flat one, so [getCollectionItems("COL1", recursive = true)] returns
    ITEM1 alone, although the sub-collection COL2 has an item of its own;
    and the request of the web backend for the recursive case names COL1
    only. *)
Theorem recursive_collection_items_stay_flat :
  LocalBackend.getSubcollections (LocalBackend.walk_depth Sample.library)
    Sample.library "COL1" ["COL1"] = Some ["COL1"; "COL2"; "COL3"]
  ∧ (∃ r, LocalBackend.getCollectionItems Sample.local "COL2" None None = Resolved r
          ∧ item_key <$> items r = [Some "ITEM2"])
  ∧ (∃ r, LocalBackend.getCollectionItems Sample.local "COL1" (Some true) None
            = Resolved r
          ∧ item_key <$> items r = [Some "ITEM1"]
          ∧ totalResults r = Num 1)
  ∧ LocalBackend.getCollectionItems Sample.local "COL1" (Some true) None
    = LocalBackend.getCollectionItems Sample.local "COL1" (Some false) None
  ∧ WebAPIBackend.collection_endpoint Sample.web "COL1" (Some true) None
    = "/users/1/collections/COL1/items?format=json&limit=25&start=0&sort=dateModified&direction=desc".
Proof.
  split_and!.
  - vm_compute. reflexivity.
  - eexists. split; [reflexivity | vm_compute; reflexivity].
  - eexists. split; [vm_compute; reflexivity |].
    split; vm_compute; reflexivity.
  - vm_compute. reflexivity.
  - vm_compute. reflexivity.
Qed.

(** C2. Evaluated on the web backend with the tag list [a; b]: the request
    carries the single parameter [tag=a || b], and what the service answers
    is returned unfiltered, so against a service that reads [||] as a
    disjunction the result holds X, which carries [a] but not [b]. *)
Theorem remote_tags_joined_as_disjunction :
  WebAPIBackend.search_endpoint Sample.web None
    (Some (with_tags ["a"; "b"] no_filters))
  = "/users/1/items/top?format=json&limit=25&start=0&sort=dateModified&direction=desc&tag=a+%7C%7C+b"
  ∧ ∃ r, WebAPIBackend.searchItems Sample.tag_service Sample.web None
           (Some (with_tags ["a"; "b"] no_filters)) = Resolved r
         ∧ item_key <$> items r = [Some "X"; Some "Y"; Some "Z"]
         ∧ ∃ it, it ∈ items r ∧ item_key it = Some "X"
                 ∧ item_tag_names it = ["a"] ∧ "b" ∉ item_tag_names it.
Proof.
  split; [vm_compute; reflexivity |].
  eexists. split; [vm_compute; reflexivity |].
  split; [vm_compute; reflexivity |].
  eexists. split; [left |].
  split; [vm_compute; reflexivity |].
  split; [vm_compute; reflexivity |].
  vm_compute. intros H. inversion H as [| ? ? ? H']; inversion H'.
Qed.

(** C3. Evaluated on the web backend for the page [start = 2, limit = 1] of
    a three-item result: one item comes back and [nextStart] is 1, the page
    length alone, not [2 + 1]; [hasMore] is [false] as the service says,
    while [nextStart < totalResults] holds. *)
Theorem remote_nextStart_drops_offset :
  ∃ r, WebAPIBackend.searchItems Sample.paging_service Sample.web None
         (Some (with_limit (Some 1) (with_start (Some 2) no_filters))) = Resolved r
       ∧ List.length (items r) = 1%nat
       ∧ totalResults r = Num 3
       ∧ nextStart r = 1
       ∧ nextStart r ≠ 2 + Z.of_nat (List.length (items r))
       ∧ hasMore r = false
       ∧ number_lt (Num (nextStart r)) (totalResults r) = true.
Proof.
  eexists. split; [vm_compute; reflexivity |].
  split_and!; try (vm_compute; reflexivity).
  vm_compute. discriminate.
Qed.

Lemma page_size_Some (p : Promise SearchResult) (n : nat) :
  page_size p = Some n → ∃ r, p = Resolved r ∧ List.length (items r) = n.
Proof. destruct p as [r|e]; [| done]. intros [= <-]. by exists r. Qed.

Lemma page_keys_Some (p : Promise SearchResult) (ks : list (option string)) :
  page_keys p = Some ks → ∃ r, p = Resolved r ∧ item_key <$> items r = ks.
Proof. destruct p as [r|e]; [| done]. intros [= <-]. by exists r. Qed.

Lemma found_marks_Some (p : Promise (option ZoteroItem)) (k : option string)
    (d : option JSON) :
  found_marks p = Some (k, d) →
  ∃ it, p = Resolved (Some it) ∧ item_key it = k ∧ it !! "deleted" = d.
Proof. destruct p as [[it|]|e]; try done. intros [= <- <-]. by exists it. Qed.

Lemma list_keys_Some (p : Promise (list ZoteroItem)) (ks : list (option string)) :
  list_keys p = Some ks → ∃ its, p = Resolved its ∧ item_key <$> its = ks.
Proof. destruct p as [its|e]; [| done]. intros [= <-]. by exists its. Qed.

(** C4. Evaluated with [maxLimit = 100] configured, as [loadConfig] sets
    it: a local search with [limit = 101] over 101 articles returns all 101
    of them, the web search with [limit = 101] asks the service for 101 and
    returns the 101 items of the answer, and the web request for
    [limit = 500] asks for 500.  No limit is clamped. *)
Theorem limit_above_maxLimit_not_clamped :
  maxLimit (LocalBackend.config (Sample.local_articles 101)) = 100
  ∧ (∃ r, LocalBackend.searchItems (Sample.local_articles 101) None
            (Some (with_limit (Some 101) no_filters)) = Resolved r
          ∧ List.length (items r) = 101%nat)
  ∧ maxLimit (WebAPIBackend.config Sample.web) = 100
  ∧ (∃ r, WebAPIBackend.searchItems Sample.wide_service Sample.web None
            (Some (with_limit (Some 101) no_filters)) = Resolved r
          ∧ List.length (items r) = 101%nat)
  ∧ WebAPIBackend.search_endpoint Sample.web None
      (Some (with_limit (Some 500) no_filters))
    = "/users/1/items/top?format=json&limit=500&start=0&sort=dateModified&direction=desc".
Proof.
  split_and!; try (vm_compute; reflexivity);
    apply page_size_Some; vm_compute; reflexivity.
Qed.

(** C5. Evaluated on DEL001, which is soft-deleted in the sample library
    and lies in the trash of the service.  The local [getItem] joins the
    deletion markers and answers not-found; the web [getItem] has no such
    check and answers with the item that the service still serves, marked
    [deleted]. *)
Theorem web_getItem_serves_trashed_item :
  soft_deleted Sample.library "DEL001"
  ∧ LocalBackend.getItem (JS.join "/") Sample.local "DEL001" None = Resolved None
  ∧ (∃ it, WebAPIBackend.getItem Sample.trash_service Sample.web "DEL001" None
             = Resolved (Some it)
           ∧ item_key it = Some "DEL001" ∧ it !! "deleted" = Some (JNum 1))
  ∧ (∃ it, WebAPIBackend.getItem Sample.trash_service Sample.web "DEL001" (Some false)
             = Resolved (Some it)
           ∧ item_key it = Some "DEL001" ∧ it !! "deleted" = Some (JNum 1)).
Proof.
  split_and!.
  - intros i Hi Hk. vm_compute in Hi.
    repeat (apply elem_of_cons in Hi as [-> | Hi]); try discriminate Hk.
    + vm_compute. left.
    + by apply elem_of_nil in Hi.
  - vm_compute. reflexivity.
  - apply found_marks_Some. vm_compute. reflexivity.
  - apply found_marks_Some. vm_compute. reflexivity.
Qed.

(** C6. The local [getBibliography] resolves, for every key list and every
    style, to one fixed message saying that the capability is missing. *)
Theorem local_getBibliography_fixed_message
    (B : LocalBackend.t) (keys : list string) (style : option string) :
  LocalBackend.getBibliography B keys style
  = Resolved "Bibliography generation requires Web API mode or citeproc-js integration."
  ∧ ∀ B' keys' style',
      LocalBackend.getBibliography B' keys' style'
      = LocalBackend.getBibliography B keys style.
Proof. split; reflexivity. Qed.

(** C8. Evaluated on a service that throttles with [Retry-After: 404]: the
    request is rejected with the rate-limit error, whose message carries the
    interval, and [getItem] takes the 404 in that message for a missing item
    and resolves to not-found instead of throwing the error again. *)
Theorem getItem_takes_retry_interval_for_404 :
  WebAPIBackend.request (Sample.throttling_service "404") Sample.web
    "/users/1/items/ITEM1" ∅
  = Rejected (mkError "Rate limited. Retry after 404 seconds.")
  ∧ WebAPIBackend.getItem (Sample.throttling_service "404") Sample.web "ITEM1" None
    = Resolved None
  ∧ WebAPIBackend.getItem (Sample.throttling_service "30") Sample.web "ITEM1" None
    = Rejected (mkError "Rate limited. Retry after 30 seconds.")
  ∧ WebAPIBackend.getItem Sample.empty_service Sample.web "ITEM1" None
    = Resolved None.
Proof.
  split_and!.
  - unfold WebAPIBackend.request. rewrite (left_id_L ∅ (∪)). reflexivity.
  - vm_compute. reflexivity.
  - vm_compute. reflexivity.
  - vm_compute. reflexivity.
Qed.

(** C10. On both backends a [limit] of 0 is the same call as no [limit]
    and a [start] of 0 is the same call as no [start].  What such a call
    returns is the default page: locally the first [defaultLimit] rows of
    the ordered result, from its first row on; on the web the answer to
    the request that carries [limit=<defaultLimit>] and [start=0], the
    request that the default limit given explicitly sends as well.  On the
    samples a call with [limit = 0] returns three items, not none. *)
Theorem zero_limit_and_start_are_defaults
    (B : LocalBackend.t) (W : WebAPIBackend.t) (fetch : WebAPIBackend.Fetch)
    (q : option string) (f : SearchFilters) :
  LocalBackend.searchItems B q (Some (with_limit (Some 0) f))
    = LocalBackend.searchItems B q (Some (with_limit None f))
  ∧ LocalBackend.searchItems B q (Some (with_start (Some 0) f))
    = LocalBackend.searchItems B q (Some (with_start None f))
  ∧ WebAPIBackend.searchItems fetch W q (Some (with_limit (Some 0) f))
    = WebAPIBackend.searchItems fetch W q (Some (with_limit None f))
  ∧ WebAPIBackend.searchItems fetch W q (Some (with_start (Some 0) f))
    = WebAPIBackend.searchItems fetch W q (Some (with_start None f))
  ∧ JS.or_num (with_limit (Some 0) f).(limit) (defaultLimit (LocalBackend.config B))
    = defaultLimit (LocalBackend.config B)
  ∧ WebAPIBackend.base_params W (Some (with_limit (Some 0) f)) !! 1%nat
    = Some ("limit", WebAPIBackend.PNum (defaultLimit (WebAPIBackend.config W)))
  ∧ WebAPIBackend.base_params W (Some (with_start (Some 0) f)) !! 2%nat
    = Some ("start", WebAPIBackend.PNum 0)
  ∧ (0 ≤ defaultLimit (LocalBackend.config B) < 2 ^ 63 →
     ∃ r, LocalBackend.searchItems B q
            (Some (with_limit (Some 0) (with_start (Some 0) f))) = Resolved r
       ∧ items r
         = LocalBackend.search_item B <$>
             take (Z.to_nat (defaultLimit (LocalBackend.config B)))
               (SQL.order_by_text
                  (LocalBackend.search_sort_column (Some f))
                  (LocalBackend.search_direction (Some f))
                  (remove_dups
                     (filter (λ i, Is_true (LocalBackend.search_where
                                              (LocalBackend.db B) q (Some f) i))
                             (Db.items (LocalBackend.db B)))))
       ∧ nextStart r = Z.of_nat (List.length (items r)))
  ∧ (∃ r, LocalBackend.searchItems Sample.local None
            (Some (with_limit (Some 0) (with_start (Some 0) no_filters))) = Resolved r
       ∧ item_key <$> items r = [Some "ITEM1"; Some "ITEM2"; Some "ITEM3"])
  ∧ WebAPIBackend.searchItems fetch W q (Some (with_limit (Some 0) f))
    = WebAPIBackend.fetchItemsWithTotal fetch W
        (WebAPIBackend.search_endpoint W q
           (Some (with_limit (Some (defaultLimit (WebAPIBackend.config W))) f)))
  ∧ WebAPIBackend.search_endpoint Sample.web None
      (Some (with_limit (Some 0) (with_start (Some 0) (with_tags ["a"; "b"] no_filters))))
    = "/users/1/items/top?format=json&limit=25&start=0&sort=dateModified&direction=desc&tag=a+%7C%7C+b"
  ∧ (∃ r, WebAPIBackend.searchItems Sample.tag_service Sample.web None
            (Some (with_limit (Some 0)
                     (with_start (Some 0) (with_tags ["a"; "b"] no_filters))))
          = Resolved r
       ∧ item_key <$> items r = [Some "X"; Some "Y"; Some "Z"]).
Proof.
  split_and!; try reflexivity.
  - intros [Hd _].
    destruct (local_search_items B q
                (Some (with_limit (Some 0) (with_start (Some 0) f))))
      as (r & Hr & Hitems).
    exists r. split_and!; [done | |].
    + rewrite Hitems. unfold local_page, SQL.limit_offset.
      change (JS.or_num (Some (with_limit (Some 0) (with_start (Some 0) f)) ≫= limit)
                (defaultLimit (LocalBackend.config B)))
        with (defaultLimit (LocalBackend.config B)).
      destruct (Z.ltb_spec (defaultLimit (LocalBackend.config B)) 0); [lia |].
      reflexivity.
    + unfold LocalBackend.searchItems in Hr. injection Hr as <-. cbn [nextStart items].
      change (JS.or_num (Some (with_limit (Some 0) (with_start (Some 0) f)) ≫= start) 0)
        with 0. lia.
  - apply page_keys_Some. vm_compute. reflexivity.
  - unfold WebAPIBackend.searchItems. f_equal.
    unfold WebAPIBackend.search_endpoint, WebAPIBackend.search_params,
      WebAPIBackend.base_params.
    change (JS.or_num (Some (with_limit (Some 0) f) ≫= limit)
              (defaultLimit (WebAPIBackend.config W)))
      with (defaultLimit (WebAPIBackend.config W)).
    replace (JS.or_num
               (Some (with_limit (Some (defaultLimit (WebAPIBackend.config W))) f)
                ≫= limit)
               (defaultLimit (WebAPIBackend.config W)))
      with (defaultLimit (WebAPIBackend.config W)); [reflexivity |].
    cbn [mbind option_bind limit with_limit JS.or_num].
    by destruct (defaultLimit (WebAPIBackend.config W) =? 0).
  - apply page_keys_Some. vm_compute. reflexivity.
Qed.

(** ** Further properties of the cache *)

Section CacheMore.
Context {T : Type}.
Implicit Types (c : Cache.t T) (k : string) (v : T).

(** X1. [cleanup] removes exactly the entries whose expiry has passed and keeps
    every other entry with its value and expiry; a [get] right after it
    returns what it would have returned before and evicts nothing more. *)
Theorem cache_cleanup_exact c k (now : Z) :
  Cache.store (Cache.cleanup now c) !! k
  = match Cache.store c !! k with
    | Some e => if now >? Cache.expires e then None else Some e
    | None => None
    end
  ∧ Cache.ttl (Cache.cleanup now c) = Cache.ttl c
  ∧ Cache.get now k (Cache.cleanup now c)
    = ((Cache.get now k c).1, Cache.cleanup now c).
Proof.
  assert (Cache.store (Cache.cleanup now c) !! k
          = match Cache.store c !! k with
            | Some e => if now >? Cache.expires e then None else Some e
            | None => None
            end) as Hlook.
  { unfold Cache.cleanup. cbn [Cache.store].
    destruct (Cache.store c !! k) as [e|] eqn:Hk.
    - destruct (Z.gtb_spec now (Cache.expires e)) as [Hgt | Hle].
      + apply map_lookup_filter_None. right. intros e' He'.
        rewrite Hk in He'. injection He' as <-. simpl. lia.
      + apply map_lookup_filter_Some. split; [done | simpl; lia].
    - apply map_lookup_filter_None. by left. }
  split_and!; [done | done |].
  unfold Cache.get at 1. rewrite Hlook. unfold Cache.get.
  destruct (Cache.store c !! k) as [e|]; [| done].
  destruct (now >? Cache.expires e) eqn:Hgt; [done |]. by rewrite Hgt.
Qed.

(** X2. [delete] reports whether the key was stored, expired or not: on an
    entry whose TTL has elapsed [has] answers [false] while [delete]
    answers [true], unless a [has] or [get] has evicted the entry first.
    After [delete] every [get] of the key is absent and the other keys
    answer as before. *)
Theorem cache_delete_reports_stored c k (now : Z) :
  ((Cache.has now k c).1 = true → (Cache.delete k c).1 = true)
  ∧ (∀ e, Cache.store c !! k = Some e → Cache.expires e < now →
       (Cache.has now k c).1 = false
       ∧ (Cache.delete k c).1 = true
       ∧ (Cache.delete k (Cache.has now k c).2).1 = false)
  ∧ (∀ t, (Cache.get t k (Cache.delete k c).2).1 = None)
  ∧ (∀ t k', k' ≠ k →
       (Cache.get t k' (Cache.delete k c).2).1 = (Cache.get t k' c).1).
Proof.
  split_and!.
  - unfold Cache.has, Cache.get, Cache.delete. cbn [fst].
    destruct (Cache.store c !! k) as [e|]; [| done].
    intros _. apply bool_decide_eq_true. by eexists.
  - intros e Hk Hlt. unfold Cache.has.
    rewrite (cache_get_expired _ _ _ _ Hk Hlt). split_and!; [done | |].
    + unfold Cache.delete. cbn [fst]. apply bool_decide_eq_true.
      rewrite Hk. by eexists.
    + unfold Cache.delete. cbn [fst snd Cache.store].
      apply bool_decide_eq_false. rewrite lookup_delete_eq. by intros [? ?].
  - intros t. unfold Cache.get, Cache.delete. cbn [snd Cache.store].
    by rewrite lookup_delete_eq.
  - intros t k' Hne. unfold Cache.get, Cache.delete. cbn [snd Cache.store].
    rewrite lookup_delete_ne by done.
    destruct (Cache.store c !! k') as [e|]; [| done].
    by destruct (t >? Cache.expires e).
Qed.

(** X3. [set(k, v)] touches no other key: what [get] returns for another key,
    before or after its expiry, is what it returned without the [set]; and
    after [clear] every key is absent while the TTL is kept, so that a later
    [set] is served again. *)
Theorem cache_set_leaves_other_keys c k k' v (t0 t : Z) :
  k' ≠ k →
  (Cache.get t k' (Cache.set t0 k v c)).1 = (Cache.get t k' c).1
  ∧ Cache.store (Cache.set t0 k v c) !! k' = Cache.store c !! k'
  ∧ (Cache.get t k (Cache.clear c)).1 = None
  ∧ (t ≤ t0 + Cache.ttl c →
     (Cache.get t k (Cache.set t0 k v (Cache.clear c))).1 = Some v).
Proof.
  intros Hne.
  assert (Cache.store (Cache.set t0 k v c) !! k' = Cache.store c !! k') as Hother.
  { unfold Cache.set. cbn [Cache.store]. by rewrite lookup_insert_ne. }
  split_and!; [| done | done |].
  - unfold Cache.get. rewrite Hother.
    destruct (Cache.store c !! k') as [e|]; [| done].
    by destruct (t >? Cache.expires e).
  - intros Ht.
    rewrite (cache_get_fresh _ _ _ _ (cache_set_lookup (Cache.clear c) k v t0));
      [done | simpl; lia].
Qed.

End CacheMore.

(** Two distinct keys of a cache of strings. *)
Lemma cache_set_leaves_other_keys_witness :
  (Cache.get 5 "b" (Cache.set 0 "a" "x" (Cache.set 0 "b" "y" (Cache.new None)))).1
  = (Cache.get 5 "b" (Cache.set 0 "b" "y" (Cache.new None))).1.
Proof.
  refine (proj1 (cache_set_leaves_other_keys
                   (Cache.set 0 "b" "y" (Cache.new None)) "a" "b" "x" 0 5 _)).
  discriminate.
Defined.

(** ** Properties of the configuration resolver *)

Section ConfigFacts.
Variable path_join : list string → string.
Variable existsSync : string → bool.
Variable isDirectory : string → Promise bool.
Variable readdirSync : string → Promise (list string).

Lemma truthy_Some (x : option string) :
  JS.truthy x = true ↔ ∃ c s, x = Some (String c s).
Proof.
  destruct x as [[|c s]|]; simpl; split; try done; try (by intros (? & ? & ?)).
  intros _. by exists c, s.
Qed.

Lemma validateConfig_web_ok (config : ZoteroConfig) :
  mode config = WEB →
  Config.validateConfig path_join existsSync config = [] →
  JS.truthy (apiKey config) = true
  ∧ (JS.truthy (userId config) = true ∨ JS.truthy (groupId config) = true).
Proof.
  intros Hmode. unfold Config.validateConfig. rewrite Hmode.
  destruct (JS.truthy (apiKey config)), (JS.truthy (userId config)),
    (JS.truthy (groupId config)); simpl; intros; (done || (split; auto)).
Qed.

(** X4. In web mode [validateConfig] reports no error exactly when an API key
    and a user or group id are set, reports both missing settings together
    when neither is, and never looks at the file system. *)
Theorem validateConfig_web (config : ZoteroConfig) :
  mode config = WEB →
  (Config.validateConfig path_join existsSync config = []
   ↔ JS.truthy (apiKey config) = true
     ∧ (JS.truthy (userId config) = true ∨ JS.truthy (groupId config) = true))
  ∧ (JS.truthy (apiKey config) = false → JS.truthy (userId config) = false →
     JS.truthy (groupId config) = false →
     Config.validateConfig path_join existsSync config
     = [ "ZOTERO_API_KEY is required for web mode";
         "ZOTERO_USER_ID or ZOTERO_GROUP_ID is required for web mode" ])
  ∧ ∀ path_join' existsSync',
      Config.validateConfig path_join' existsSync' config
      = Config.validateConfig path_join existsSync config.
Proof.
  intros Hmode. unfold Config.validateConfig. rewrite Hmode.
  split_and!.
  - destruct (JS.truthy (apiKey config)), (JS.truthy (userId config)),
      (JS.truthy (groupId config)); simpl; split;
      (done || (intros [? [? | ?]]; done) || (intros; split; auto)).
  - by intros -> -> ->.
  - done.
Qed.

(** X5. A web configuration that passes [validateConfig] addresses a defined
    library, the group when a group id is set and the user otherwise, never
    [users/undefined], and the backend built from it sends the API key. *)
Theorem validated_web_config_prefix (config : ZoteroConfig) :
  mode config = WEB →
  Config.validateConfig path_join existsSync config = [] →
  (∃ c id,
     (groupId config = Some (String c id)
      ∧ getLibraryPrefix config = "groups/" ++ String c id)
     ∨ (JS.truthy (groupId config) = false
        ∧ userId config = Some (String c id)
        ∧ getLibraryPrefix config = "users/" ++ String c id))
  ∧ WebAPIBackend.libraryPrefix (WebAPIBackend.new config) = getLibraryPrefix config
  ∧ WebAPIBackend.headers (WebAPIBackend.new config) !! "Zotero-API-Key"
    = apiKey config.
Proof.
  intros Hmode Hok.
  destruct (validateConfig_web_ok config Hmode Hok) as [Hkey Hid].
  split_and!.
  - unfold getLibraryPrefix.
    destruct (JS.truthy (groupId config)) eqn:Hg.
    + apply truthy_Some in Hg as (c & id & Hg). exists c, id. left.
      by rewrite Hg.
    + destruct Hid as [Hu | ?]; [| done].
      apply truthy_Some in Hu as (c & id & Hu). exists c, id. right.
      by rewrite Hu.
  - done.
  - unfold WebAPIBackend.new. rewrite Hkey. cbn [WebAPIBackend.headers].
    rewrite lookup_insert_eq.
    apply truthy_Some in Hkey as (c & s & ->). done.
Qed.

(** X6. In local mode [validateConfig] reports at most one error, and none
    exactly when the data directory is set and exists and holds
    zotero.sqlite.  The constructor of the local backend looks for the
    database at that same path: it fails with a message naming the path
    when the file cannot be opened, and otherwise yields a backend on the
    opened database whose storage directory is defined. *)
Theorem validateConfig_local (config : ZoteroConfig) (fs : string → option Db.t)
    (g : LocalBackend.Mappings) (c : ascii) (dir : string) :
  mode config = LOCAL →
  dataDir config = Some (String c dir) →
  path_join [String c dir; "zotero.sqlite"] ≠ "" →
  (List.length (Config.validateConfig path_join existsSync config) ≤ 1)%nat
  ∧ (Config.validateConfig path_join existsSync config = []
     ↔ existsSync (String c dir) = true
       ∧ existsSync (path_join [String c dir; "zotero.sqlite"]) = true)
  ∧ LocalBackend.new path_join fs config g
    = match fs (path_join [String c dir; "zotero.sqlite"]) with
      | Some d =>
          inr (LocalBackend.mk d config
                 (Some (path_join [String c dir; "storage"]))
                 (LocalBackend.loadMappings d g))
      | None =>
          inl (mkError ("Zotero database not found at: "
                        ++ path_join [String c dir; "zotero.sqlite"]))
      end.
Proof.
  intros Hmode Hd Hp. unfold Config.validateConfig. rewrite Hmode, Hd.
  cbn [JS.truthy negb default from_option id].
  split_and!.
  - destruct (existsSync (String c dir)) eqn:E1;
      destruct (existsSync (path_join [String c dir; "zotero.sqlite"])) eqn:E2;
      cbn [negb List.length]; lia.
  - destruct (existsSync (String c dir));
      destruct (existsSync (path_join [String c dir; "zotero.sqlite"]));
      simpl; split; (done || (intros [? ?]; done) || (intros; split; done)).
  - unfold LocalBackend.new, LocalBackend.getSqlitePath,
      LocalBackend.getStoragePath. rewrite Hd.
    cbn [JS.truthy default from_option id].
    destruct (path_join [String c dir; "zotero.sqlite"]) as [|a p]; [done |].
    cbn [JS.truthy]. by destruct (fs (String a p)).
Qed.

(** Without a data directory the constructor of the local backend fails,
    whatever the file system holds. *)
Lemma local_new_without_dataDir (config : ZoteroConfig) (fs : string → option Db.t)
    (g : LocalBackend.Mappings) :
  JS.truthy (dataDir config) = false →
  LocalBackend.new path_join fs config g
  = inl (mkError "Zotero database not found at: undefined").
Proof.
  intros Hd. unfold LocalBackend.new, LocalBackend.getSqlitePath. by rewrite Hd.
Qed.

Lemma scan_profiles_found p entries d :
  Config.scan_profiles path_join existsSync isDirectory p entries
    = Resolved (Some d) →
  existsSync (path_join [d; "zotero.sqlite"]) = true.
Proof.
  induction entries as [|entry rest IH]; simpl; [done |].
  destruct (isDirectory (path_join [p; entry])) as [[|]|e]; simpl; [| done | done].
  destruct (existsSync (path_join [path_join [path_join [p; entry]; "zotero"];
                                   "zotero.sqlite"])) eqn:He; [| done].
  by intros [= <-].
Qed.

Lemma detect_in_found paths d :
  Config.detect_in path_join existsSync isDirectory readdirSync paths
    = Resolved (Some d) →
  existsSync (path_join [d; "zotero.sqlite"]) = true.
Proof.
  induction paths as [|p rest IH]; simpl; [done |].
  destruct (existsSync p); [| done].
  destruct (existsSync (path_join [p; "zotero.sqlite"])) eqn:He.
  { by intros [= <-]. }
  destruct (isDirectory p) as [[|]|e]; simpl; [| done | done].
  destruct (readdirSync p) as [entries|e]; simpl; [| done].
  destruct (Config.scan_profiles path_join existsSync isDirectory p entries)
    as [[d'|]|e] eqn:Hscan; [| done | done].
  intros [= <-]. by eapply scan_profiles_found.
Qed.

(** X7. [detectZoteroDataDir] only ever returns a directory in which
    zotero.sqlite exists, and it returns nothing when none of the candidate
    directories of the platform exists. *)
Theorem detectZoteroDataDir_sound (platform home : string) (APPDATA : option string) :
  (∀ d, Config.detectZoteroDataDir path_join existsSync isDirectory readdirSync
          platform home APPDATA = Resolved (Some d) →
        existsSync (path_join [d; "zotero.sqlite"]) = true)
  ∧ ((∀ p, p ∈ Config.possiblePaths path_join platform home APPDATA →
           existsSync p = false) →
     Config.detectZoteroDataDir path_join existsSync isDirectory readdirSync
       platform home APPDATA = Resolved None).
Proof.
  split.
  - intros d. apply detect_in_found.
  - unfold Config.detectZoteroDataDir.
    induction (Config.possiblePaths path_join platform home APPDATA)
      as [|p rest IH]; [done |].
    intros Hno. simpl. rewrite (Hno p) by left.
    apply IH. intros p' Hp'. apply Hno. by right.
Qed.

End ConfigFacts.

(** The default web configuration passes validation. *)
Lemma validateConfig_web_witness :
  mode Sample.web_config = WEB
  ∧ Config.validateConfig (JS.join "/") Shelf.existsSync Sample.web_config = [].
Proof.
  split; [reflexivity |].
  apply (proj1 (validateConfig_web (JS.join "/") Shelf.existsSync
                  Sample.web_config eq_refl)).
  split; [reflexivity | left; reflexivity].
Defined.

(** The default web configuration addresses the library of user 1. *)
Lemma validated_web_config_prefix_witness :
  WebAPIBackend.headers (WebAPIBackend.new Sample.web_config) !! "Zotero-API-Key"
  = Some "secret".
Proof.
  exact (proj2 (proj2 (validated_web_config_prefix (JS.join "/") Shelf.existsSync
                         Sample.web_config eq_refl eq_refl))).
Defined.

(** The sample local configuration on the sample file system. *)
Lemma validateConfig_local_witness :
  Config.validateConfig (JS.join "/") Shelf.existsSync Sample.local_config = []
  ∧ LocalBackend.new (JS.join "/")
      (λ p, if String.eqb p "/home/u/Zotero/zotero.sqlite" then Some Shelf.library
            else None)
      Sample.local_config LocalBackend.no_mappings
    = inr Shelf.local.
Proof.
  pose proof (validateConfig_local (JS.join "/") Shelf.existsSync
                Sample.local_config
                (λ p, if String.eqb p "/home/u/Zotero/zotero.sqlite"
                      then Some Shelf.library else None)
                LocalBackend.no_mappings "/" "home/u/Zotero"
                eq_refl eq_refl ltac:(discriminate)) as (_ & Hiff & Hnew).
  split.
  - apply Hiff. split; reflexivity.
  - rewrite Hnew. reflexivity.
Defined.

(** ** Further properties of the local backend *)

Section LocalMore.
Implicit Types (B : LocalBackend.t) (d : Db.t) (q : option string)
               (f : option SearchFilters) (row : Db.item).

Lemma load_table_lookup (rows : list (Z * string)) (m : gmap Z string) (id : Z) :
  LocalBackend.load_table rows m !! id
  = match last (filter (λ r, r.1 = id) rows) with
    | Some r => Some r.2
    | None => m !! id
    end.
Proof.
  unfold LocalBackend.load_table. revert m.
  induction rows as [|r rows IH]; intros m; [done |].
  cbn [foldl]. rewrite IH. rewrite filter_cons.
  destruct (decide (r.1 = id)) as [Heq | Hne].
  - rewrite last_cons.
    destruct (last (filter (λ r0, r0.1 = id) rows)); [done |].
    rewrite <- Heq. apply lookup_insert_eq.
  - destruct (last (filter (λ r0, r0.1 = id) rows)); [done |].
    by rewrite lookup_insert_ne.
Qed.

(** X8. [loadMappings] gives each id the name of the last row of the table that
    carries it, and leaves the entry of an earlier instance in place for an
    id that the tables of the new database do not define. *)
Theorem loadMappings_last_row_wins d (g : LocalBackend.Mappings) (id : Z) :
  LocalBackend.ITEM_TYPES (LocalBackend.loadMappings d g) !! id
  = match last (filter (λ r, r.1 = id) (Db.itemTypes d)) with
    | Some r => Some r.2
    | None => LocalBackend.ITEM_TYPES g !! id
    end
  ∧ LocalBackend.FIELD_NAMES (LocalBackend.loadMappings d g) !! id
    = match last (filter (λ r, r.1 = id) (Db.fields d)) with
      | Some r => Some r.2
      | None => LocalBackend.FIELD_NAMES g !! id
      end
  ∧ LocalBackend.CREATOR_TYPES (LocalBackend.loadMappings d g) !! id
    = match last (filter (λ r, r.1 = id) (Db.creatorTypes d)) with
      | Some r => Some r.2
      | None => LocalBackend.CREATOR_TYPES g !! id
      end.
Proof. split_and!; apply load_table_lookup. Qed.




End LocalMore.


Section LocalPages.
Implicit Types (B : LocalBackend.t) (q : option string) (f : SearchFilters).













End LocalPages.


(** ** Collections and tags of the local backend *)

Section LocalCollections.
Implicit Types (B : LocalBackend.t) (x : Db.ext).

Lemma collection_obj_key key name parent version :
  JS.prop_str (LocalBackend.collection_obj key name parent version) "key" = Some key.
Proof.
  unfold JS.prop_str, LocalBackend.collection_obj, JS.obj. cbn [foldl fst snd].
  rewrite !lookup_insert_ne by done. by rewrite lookup_insert_eq.
Qed.

Lemma collection_obj_parent key name parent version p :
  LocalBackend.collection_obj key name parent version !! "parentCollection"
    = Some (JStr p) →
  parent = Some p.
Proof.
  unfold LocalBackend.collection_obj, JS.obj. cbn [foldl fst snd].
  rewrite lookup_insert_ne by done. rewrite lookup_insert_eq.
  destruct parent as [[|c s]|]; simpl; [done | | done]. by intros [= <-].
Qed.

Lemma idToKey_lookup (rows : list Db.collection) (m : gmap Z string) id k :
  foldl (λ m row, <[Db.collectionID row := Db.c_key row]> m) m rows !! id = Some k →
  m !! id = Some k ∨ ∃ row, row ∈ rows ∧ Db.c_key row = k.
Proof.
  revert m. induction rows as [|row rows IH]; intros m; [by left |].
  cbn [foldl]. intros Hl. apply IH in Hl as [Hl | (row' & Hin & Hk)].
  - destruct (decide (Db.collectionID row = id)) as [<- | Hne].
    + rewrite lookup_insert_eq in Hl. injection Hl as <-.
      right. exists row. split; [left | done].
    + rewrite lookup_insert_ne in Hl by done. by left.
  - right. exists row'. split; [by right | done].
Qed.

(** X12. Local [getCollections] lists the collections that are not deleted, one
    entry for each, and its parent references are closed: whenever an entry
    names a parent, that parent is itself in the list, so a collection whose
    parent is deleted is listed without a parent. *)
Theorem local_getCollections_parents_closed B x :
  ∃ cs, LocalBackend.getCollections B x = Resolved cs
    ∧ List.length cs
      = List.length (LocalBackend.live_collections (LocalBackend.db B) x)
    ∧ (∀ c, c ∈ cs →
         ∃ row, row ∈ Db.collections (LocalBackend.db B)
           ∧ (Db.collectionID row ∉ Db.deletedCollections x)
           ∧ JS.prop_str c "key" = Some (Db.c_key row))
    ∧ (∀ c p, c ∈ cs → c !! "parentCollection" = Some (JStr p) →
         ∃ c', c' ∈ cs ∧ JS.prop_str c' "key" = Some p).
Proof.
  eexists. split; [reflexivity |].
  set (rows := SQL.order_by_text Db.collectionName asc
                 (LocalBackend.live_collections (LocalBackend.db B) x)).
  assert (∀ row, row ∈ rows ↔
            row ∈ LocalBackend.live_collections (LocalBackend.db B) x) as Hrows.
  { intros row. apply order_by_text_elem. }
  split_and!.
  - rewrite length_map. unfold rows, SQL.order_by_text.
    by rewrite merge_sort_Permutation.
  - intros c Hc. apply list_elem_of_fmap in Hc as (row & -> & Hrow).
    apply Hrows, list_elem_of_filter in Hrow as [Hlive Hin].
    exists row. split_and!; [done | done |]. apply collection_obj_key.
  - intros c p Hc Hp. apply list_elem_of_fmap in Hc as (row & -> & Hrow).
    apply collection_obj_parent in Hp.
    destruct (LocalBackend.truthy_id (Db.parentCollectionID row)) as [pid|];
      [| done].
    cbn [mbind option_bind] in Hp.
    apply idToKey_lookup in Hp as [Hp | (row' & Hin & Hk)]; [done |].
    eexists. split.
    + apply list_elem_of_fmap. exists row'. split; [reflexivity | done].
    + rewrite collection_obj_key. by rewrite Hk.
Qed.

(** X13. Local [getCollection] answers not-found exactly when every collection
    carrying the key is deleted, a missing key included, and otherwise
    answers with an entry that carries the key asked for. *)
Theorem local_getCollection_not_found B x (key : string) :
  (LocalBackend.getCollection B x key = Resolved None
   ↔ ∀ c, c ∈ Db.collections (LocalBackend.db B) → Db.c_key c = key →
          Db.collectionID c ∈ Db.deletedCollections x)
  ∧ ∃ r, LocalBackend.getCollection B x key = Resolved r
      ∧ ∀ o, r = Some o → JS.prop_str o "key" = Some key.
Proof.
  unfold LocalBackend.getCollection, SQL.first_row.
  destruct (filter _ (Db.collections (LocalBackend.db B))) as [|row rest] eqn:Hf;
    cbn [head].
  - split.
    + split; [| done]. intros _ c Hc Hk.
      destruct (decide (Db.collectionID c ∈ Db.deletedCollections x)) as [|Hn];
        [done |].
      assert (c ∈ filter (λ c, Db.c_key c = key
                ∧ Db.collectionID c ∉ Db.deletedCollections x)
                (Db.collections (LocalBackend.db B))) as Hin
        by (apply list_elem_of_filter; done).
      rewrite Hf in Hin. by apply elem_of_nil in Hin.
    + eexists. split; [reflexivity | done].
  - assert (row ∈ filter (λ c, Db.c_key c = key
              ∧ Db.collectionID c ∉ Db.deletedCollections x)
              (Db.collections (LocalBackend.db B))) as Hin
      by (rewrite Hf; left).
    apply list_elem_of_filter in Hin as [[Hk Hlive] Hin].
    split.
    + split; [done |]. intros Hall. by destruct (Hlive (Hall row Hin Hk)).
    + eexists. split; [reflexivity |]. intros o [= <-].
      rewrite collection_obj_key. by rewrite Hk.
Qed.

End LocalCollections.

Section LocalTagsStats.
Implicit Types (B : LocalBackend.t) (x : Db.ext).

Lemma tag_order_total : Total (λ a b, Is_true (LocalBackend.tag_order a b)).
Proof.
  intros a b. unfold LocalBackend.tag_order.
  destruct (Z.ltb_spec (LocalBackend.count b) (LocalBackend.count a)) as [Hlt | Hge];
    [by left |].
  destruct (Z.ltb_spec (LocalBackend.count a) (LocalBackend.count b)) as [Hlt' | Hge'];
    [by right |].
  assert (LocalBackend.count a = LocalBackend.count b) as Heq by lia.
  rewrite Heq, Z.eqb_refl. simpl.
  destruct (String.leb_total (LocalBackend.tag a) (LocalBackend.tag b)) as [H | H];
    [left | right]; by apply Is_true_true.
Qed.

(** X14. Local [getTags] never lists a tag without a live item: every entry has
    a count of at least one and names a tag that some item outside
    [deletedItems] carries; the entries come by falling count, and by name
    among equal counts. *)
Theorem local_getTags_counts_live B (filterQuery : option string) :
  ∃ ts, LocalBackend.getTags B filterQuery = Resolved ts
    ∧ (∀ t, t ∈ ts →
         1 ≤ LocalBackend.count t
         ∧ ∃ tagrow it i,
             tagrow ∈ Db.tags (LocalBackend.db B)
             ∧ tagrow.2 = LocalBackend.tag t
             ∧ it ∈ Db.itemTags (LocalBackend.db B)
             ∧ Db.it_tagID it = tagrow.1
             ∧ i ∈ Db.items (LocalBackend.db B)
             ∧ Db.itemID i = Db.it_itemID it
             ∧ (Db.itemID i ∉ Db.deletedItems (LocalBackend.db B)))
    ∧ Sorted (λ a b, Is_true (LocalBackend.tag_order a b)) ts.
Proof.
  eexists. split; [reflexivity |]. split.
  - intros t Ht. rewrite merge_sort_Permutation in Ht.
    apply list_elem_of_fmap in Ht as (g & -> & Hg).
    apply list_elem_of_fmap in Hg as (id & -> & Hid).
    rewrite elem_of_remove_dups in Hid.
    apply list_elem_of_fmap in Hid as (r & -> & Hr).
    set (rows := LocalBackend.tag_rows (LocalBackend.db B) filterQuery) in *.
    assert (r ∈ filter (λ r0, r0.1.1 = r.1.1) rows) as Hin
      by (apply list_elem_of_filter; done).
    destruct (filter (λ r0, r0.1.1 = r.1.1) rows) as [|r0 g] eqn:Hf;
      [by apply elem_of_nil in Hin |].
    split.
    + assert (r0.2 ∈ remove_dups (snd <$> r0 :: g)) as Hnz
        by (apply elem_of_remove_dups; left).
      cbn [LocalBackend.count].
      destruct (remove_dups (snd <$> r0 :: g)); [by apply elem_of_nil in Hnz |].
      cbn [List.length]. lia.
    + cbn [head fmap option_fmap option_map default LocalBackend.tag].
      assert (r0 ∈ rows) as Hr0.
      { assert (r0 ∈ filter (λ r1, r1.1.1 = r.1.1) rows) as H0 by (rewrite Hf; left).
        by apply list_elem_of_filter in H0 as [_ ?]. }
      unfold rows, LocalBackend.tag_rows in Hr0.
      apply list_elem_of_bind in Hr0 as (tagrow & Hr0 & Htag).
      apply list_elem_of_bind in Hr0 as (it & Hr0 & Hit).
      apply list_elem_of_bind in Hr0 as (i & Hr0 & Hi).
      apply list_elem_of_singleton in Hr0 as ->.
      apply list_elem_of_filter in Htag as [_ Htag].
      apply list_elem_of_filter in Hit as [Hit1 Hit].
      apply list_elem_of_filter in Hi as [[Hi1 Hi2] Hi].
      exists tagrow, it, i. done.
  - apply Sorted_merge_sort, tag_order_total.
Qed.




End LocalTagsStats.


(** ** Full text, related and recent items on the local backend *)

Section LocalFullText.
Variable path_join : list string → string.
Implicit Types (B : LocalBackend.t) (x : Db.ext).

Lemma local_getItem_resolves B key includeChildren :
  ∃ r, LocalBackend.getItem path_join B key includeChildren = Resolved r.
Proof.
  unfold LocalBackend.getItem.
  destruct (SQL.first_row _) as [row|]; [| by eexists].
  destruct (default true includeChildren); [| by eexists].
  unfold LocalBackend.getItemAnnotations, LocalBackend.getItemAttachments,
    LocalBackend.getItemNotes.
  destruct (LocalBackend.item_by_key (LocalBackend.db B) key); by eexists.
Qed.

Lemma local_getItem_found_live B key includeChildren it :
  LocalBackend.getItem path_join B key includeChildren = Resolved (Some it) →
  ¬ soft_deleted (LocalBackend.db B) key.
Proof.
  intros Hget Hdel.
  by rewrite (local_getItem_soft_deleted path_join B key includeChildren Hdel) in Hget.
Qed.

Lemma extractPdfText_resolves (existsSync : string → bool)
    (parse : string → Promise (option string)) (filePath : string) :
  ∃ r, PdfExtractor.extractPdfText existsSync parse filePath = Resolved r
    ∧ r ≠ Some "".
Proof.
  unfold PdfExtractor.extractPdfText.
  destruct (existsSync filePath); cbn [negb]; [| by eexists].
  destruct (parse filePath) as [[[|c s]|]|e]; cbn [mbind promise_bind try_catch];
    by eexists.
Qed.


Lemma attachment_texts_nonempty (existsSync : string → bool)
    (parse : string → Promise (option string)) B
    (attachments : list (gmap string JSON)) :
  ∃ texts, LocalBackend.attachment_texts path_join existsSync parse B attachments
             = Resolved texts
    ∧ Forall (λ s, s ≠ "") texts.
Proof.
  induction attachments as [|a rest (texts & IH & Hall)]; [by exists [] |].
  cbn [LocalBackend.attachment_texts]. rewrite IH.
  assert (∃ r, LocalBackend.attachment_text path_join existsSync parse B a = Resolved r
               ∧ r ≠ Some "") as (r & -> & Hr).
  { unfold LocalBackend.attachment_text.
    destruct (LocalBackend.storagePath B) as [sp|]; [| by eexists].
    destruct (_ && _); [| by eexists].
    destruct (existsSync _); [| by eexists].
    apply extractPdfText_resolves. }
  cbn [mbind promise_bind].
  destruct r as [[|c s]|]; cbn [JS.truthy default]; eexists; split;
    try reflexivity; try done.
  by constructor.
Qed.

Lemma join_nonempty (sep : string) (texts : list string) :
  texts ≠ [] → Forall (λ s, s ≠ "") texts → JS.join sep texts ≠ "".
Proof.
  destruct texts as [|[|c t] rest]; [done | |].
  - intros _ Hall. by apply Forall_cons in Hall as [? _].
  - intros _ _. by destruct rest.
Qed.

(** X17. The local [getItemFullText] answers nothing for a soft-deleted
    key, whatever the tables hold.  For a key that [getItem] finds it
    depends on the [fulltextItems] table: where the table has no [content]
    column the lookup of the indexed text cannot be prepared and the call
    rejects; where it has the column the call never rejects and never
    answers with an empty text, whatever the extraction does. *)
Theorem local_getItemFullText_outcomes (existsSync : string → bool)
    (parse : string → Promise (option string)) B x (key : string) :
  (soft_deleted (LocalBackend.db B) key →
   LocalBackend.getItemFullText path_join existsSync parse B x key = Resolved None)
  ∧ (Db.fulltextItems x = None →
     ∀ item, LocalBackend.getItem path_join B key None = Resolved (Some item) →
       LocalBackend.getItemFullText path_join existsSync parse B x key
       = Rejected (mkError "no such column: fi.content"))
  ∧ (∀ rows, Db.fulltextItems x = Some rows →
     ∃ r, LocalBackend.getItemFullText path_join existsSync parse B x key = Resolved r
       ∧ r ≠ Some "").
Proof.
  split_and!.
  - intros Hdel. unfold LocalBackend.getItemFullText.
    by rewrite (local_getItem_soft_deleted path_join B key None Hdel).
  - intros Hx item Hget. unfold LocalBackend.getItemFullText.
    rewrite Hget. cbn [mbind promise_bind]. by rewrite Hx.
  - intros rows Hx. unfold LocalBackend.getItemFullText.
    destruct (local_getItem_resolves B key None) as ([item|] & Hget).
    + rewrite Hget. cbn [mbind promise_bind]. rewrite Hx.
      destruct (attachment_texts_nonempty existsSync parse B
                  (JS.prop_objects item "attachments")) as (texts & -> & Hall).
      cbn [mbind promise_bind].
      set (indexed := if JS.truthy _ then _ else _).
      assert (Forall (λ s, s ≠ "") indexed) as Hidx.
      { unfold indexed. destruct (SQL.first_row _) as [[|c s]|]; simpl;
          repeat constructor; done. }
      eexists. split; [reflexivity |].
      destruct (indexed ++ texts)%list as [|t ts] eqn:Happ; [done |].
      assert (JS.join LocalBackend.text_separator (t :: ts) ≠ "") as Hne.
      { apply join_nonempty; [done |]. rewrite <- Happ. by apply Forall_app. }
      intros Heq. apply Hne. by injection Heq.
    + rewrite Hget. by eexists.
Qed.

Lemma fulltext_parents_spec B (rows : list string) (seenKeys : gset string) :
  ∃ its, LocalBackend.fulltext_parents path_join B rows seenKeys = Resolved its
    ∧ (List.length its ≤ List.length rows)%nat
    ∧ ∀ it, it ∈ its →
        ∃ k, LocalBackend.getItem path_join B k (Some false) = Resolved (Some it).
Proof.
  revert seenKeys. induction rows as [|key rest IH]; intros seenKeys.
  { exists []. split_and!; [done | done |]. intros it Hit. by apply elem_of_nil in Hit. }
  cbn [LocalBackend.fulltext_parents].
  set (parentKey := JS.or_str _ key).
  destruct (bool_decide (parentKey ∈ seenKeys)).
  - destruct (IH seenKeys) as (its & -> & Hlen & Hall).
    exists its. split_and!; [done | simpl; lia | done].
  - destruct (local_getItem_resolves B parentKey (Some false)) as (r & Hget).
    rewrite Hget. cbn [mbind promise_bind].
    destruct (IH ({[parentKey]} ∪ seenKeys)) as (its & -> & Hlen & Hall).
    cbn [mbind promise_bind]. destruct r as [it|].
    + exists (it :: its). split_and!; [done | simpl; lia |].
      intros it' [-> | Hit']%elem_of_cons; [by exists parentKey | by apply Hall].
    + exists its. split_and!; [done | simpl; lia | done].
Qed.

(** X18. The local [searchFullText] depends on the [fulltextItems] table:
    where the table has no [content] column the search cannot be prepared
    and every call rejects.  Where it has the column, a call whose [limit]
    (25 when left out) converts to a 64-bit integer does not reject,
    returns at most [limit] items when [limit] is not negative, and returns
    only what [getItem] finds: an attachment whose parent is soft-deleted
    contributes nothing. *)
Theorem local_searchFullText_bounded B x (query : string) (limit : option Z) :
  (Db.fulltextItems x = None →
   LocalBackend.searchFullText path_join B x query limit
   = Rejected (mkError "no such column: fi.content"))
  ∧ (∀ rows, Db.fulltextItems x = Some rows →
     - 2 ^ 63 < default 25 limit < 2 ^ 63 →
     ∃ its, LocalBackend.searchFullText path_join B x query limit = Resolved its
       ∧ (0 ≤ default 25 limit → Z.of_nat (List.length its) ≤ default 25 limit)
       ∧ ∀ it, it ∈ its →
           ∃ k, LocalBackend.getItem path_join B k (Some false) = Resolved (Some it)
                ∧ ¬ soft_deleted (LocalBackend.db B) k).
Proof.
  split.
  - intros Hx. unfold LocalBackend.searchFullText. by rewrite Hx.
  - intros rows Hx [Hlo Hhi]. unfold LocalBackend.searchFullText. rewrite Hx.
    assert (LocalBackend.binds_as_integer (default 25 limit) = true) as ->.
    { unfold LocalBackend.binds_as_integer.
      apply andb_true_intro. split; by apply Z.ltb_lt. }
    destruct (fulltext_parents_spec B
                (LocalBackend.fulltext_hits (LocalBackend.db B) rows query
                   (default 25 limit)) ∅) as (its & -> & Hlen & Hall).
    exists its. split_and!; [done | |].
    + intros Hl. unfold LocalBackend.fulltext_hits in Hlen.
      pose proof (limit_offset_length (default 25 limit) 0
                    (remove_dups
                       (fi ← rows;
                        i ← LocalBackend.live_items (LocalBackend.db B) fi.1;
                        ia ← filter (λ ia, Db.ia_itemID ia = fi.1)
                                    (Db.itemAttachments (LocalBackend.db B));
                        if SQL.like ("%" ++ query ++ "%") fi.2 then [Db.key i] else []))
                    Hl).
      lia.
    + intros it Hit. destruct (Hall it Hit) as (k & Hk). exists k.
      split; [done |]. by eapply local_getItem_found_live.
Qed.

Lemma related_items_spec B (relations : list string) :
  ∃ its, LocalBackend.related_items path_join B relations = Resolved its
    ∧ (List.length its ≤ List.length relations)%nat
    ∧ ∀ it, it ∈ its →
        ∃ k, k ∈ relations
             ∧ LocalBackend.getItem path_join B k (Some false) = Resolved (Some it).
Proof.
  induction relations as [|rel rest (its & IH & Hlen & Hall)].
  { exists []. split_and!; [done | done |]. intros it Hit. by apply elem_of_nil in Hit. }
  cbn [LocalBackend.related_items].
  destruct (local_getItem_resolves B rel (Some false)) as (r & Hget).
  rewrite Hget, IH. cbn [mbind promise_bind]. destruct r as [it|].
  - exists (it :: its). split_and!; [done | simpl; lia |].
    intros it' [-> | Hit']%elem_of_cons.
    + exists rel. split; [left | done].
    + destruct (Hall it' Hit') as (k & Hk & Hg). exists k. split; [by right | done].
  - exists its. split_and!; [done | simpl; lia |].
    intros it' Hit'. destruct (Hall it' Hit') as (k & Hk & Hg).
    exists k. split; [by right | done].
Qed.

(** X19. The local [getRelatedItems] answers with no items for a key that
    no row carries.  For a key that a row carries it depends on the
    [itemRelations] table: where the table has no [linkedItemID] column the
    relation query cannot be prepared and the call rejects; where it has
    the column the call never rejects and returns only items that [getItem]
    finds under a related key, so related items in the trash are
    skipped. *)
Theorem local_getRelatedItems_live B x (key : string) :
  (LocalBackend.item_by_key (LocalBackend.db B) key = None →
   LocalBackend.getRelatedItems path_join B x key = Resolved [])
  ∧ (Db.itemRelations x = None →
     ∀ row, LocalBackend.item_by_key (LocalBackend.db B) key = Some row →
       LocalBackend.getRelatedItems path_join B x key
       = Rejected (mkError "no such column: ir.linkedItemID"))
  ∧ (∀ relations, Db.itemRelations x = Some relations →
     ∃ its, LocalBackend.getRelatedItems path_join B x key = Resolved its
       ∧ ∀ it, it ∈ its →
           ∃ k, k ∈ LocalBackend.related_keys (LocalBackend.db B) relations key
                ∧ LocalBackend.getItem path_join B k (Some false) = Resolved (Some it)
                ∧ ¬ soft_deleted (LocalBackend.db B) k).
Proof.
  unfold LocalBackend.getRelatedItems. split_and!.
  - by intros ->.
  - intros Hx row ->. by rewrite Hx.
  - intros relations Hx. rewrite Hx.
    destruct (LocalBackend.item_by_key (LocalBackend.db B) key) as [i|].
    + destruct (related_items_spec B
                  (LocalBackend.related_keys (LocalBackend.db B) relations key))
        as (its & -> & _ & Hall).
      exists its. split; [done |].
      intros it Hit. destruct (Hall it Hit) as (k & Hk & Hg). exists k.
      split_and!; [done | done |]. by eapply local_getItem_found_live.
    + exists []. split; [done |]. intros it Hit. by apply elem_of_nil in Hit.
Qed.

End LocalFullText.

(** On the second sample library: with the tables as Zotero creates them
    the relation query and the full-text search reject; with the columns in
    place ITEM1 is related to ITEM2 and to the trashed DEL001, of which
    ITEM2 is returned, and the search for "paper" finds the attachments of
    ITEM1 and of DEL001, of which ITEM1 is returned. *)
Lemma shelf_relations_and_fulltext :
  LocalBackend.getRelatedItems (JS.join "/") Shelf.local Shelf.stock_tables "ITEM1"
  = Rejected (mkError "no such column: ir.linkedItemID")
  ∧ (∃ its, LocalBackend.getRelatedItems (JS.join "/") Shelf.local Shelf.tables "ITEM1"
            = Resolved its
          ∧ item_key <$> its = [Some "ITEM2"])
  ∧ LocalBackend.searchFullText (JS.join "/") Shelf.local Shelf.stock_tables
      "paper" None
    = Rejected (mkError "no such column: fi.content")
  ∧ (∃ its, LocalBackend.searchFullText (JS.join "/") Shelf.local Shelf.tables
              "paper" None = Resolved its
          ∧ item_key <$> its = [Some "ITEM1"])
  ∧ LocalBackend.getItemFullText (JS.join "/") Shelf.existsSync Shelf.parse
      Shelf.local Shelf.stock_tables "ITEM1"
    = Rejected (mkError "no such column: fi.content")
  ∧ LocalBackend.getItemFullText (JS.join "/") Shelf.existsSync Shelf.parse
      Shelf.local Shelf.stock_tables "DEL001"
    = Resolved None.
Proof.
  split_and!; try (vm_compute; reflexivity);
    apply list_keys_Some; vm_compute; reflexivity.
Qed.

Section LocalRecent.
Implicit Types (B : LocalBackend.t).


End LocalRecent.

(** ** Further properties of the web backend *)

Section WebMore.
Implicit Types (fetch : WebAPIBackend.Fetch) (W : WebAPIBackend.t).



(** On a service whose full-text answer for the attachment ATT1 carries a
    text, the empty array, a number, an object that cannot be converted and
    the empty text. *)
Lemma web_fulltext_by_content :
  WebAPIBackend.getItemFullText (Shelf.fulltext_service (JStr "abc")) Sample.web "ATT1"
  = Resolved (Some "abc")
  ∧ WebAPIBackend.getItemFullText (Shelf.fulltext_service (JArr [])) Sample.web "ATT1"
    = Resolved (Some "")
  ∧ WebAPIBackend.getItemFullText (Shelf.fulltext_service (JNum 5)) Sample.web "ATT1"
    = Resolved (Some "5")
  ∧ WebAPIBackend.getItemFullText
      (Shelf.fulltext_service (JObj (list_to_map [("toString", JNum 1)])))
      Sample.web "ATT1"
    = Resolved None
  ∧ WebAPIBackend.getItemFullText (Shelf.fulltext_service (JStr "")) Sample.web "ATT1"
    = Resolved None.
Proof. split_and!; vm_compute; reflexivity. Qed.

(** X23. The web [getBibliography] turns every answer outside 200–299 into an
    error that names the status and nothing else: a throttled request is
    reported as status 429 without the advertised retry interval, and a 404
    is an error too. *)
Theorem web_getBibliography_failure fetch (text : WebAPIBackend.Response → Promise string)
    W (keys : list string) (style : option string) (resp : WebAPIBackend.Response) :
  fetch (apiBaseUrl (WebAPIBackend.config W) ++ "/" ++ WebAPIBackend.libraryPrefix W
         ++ "/items?itemKey=" ++ JS.join "," keys ++ "&format=bib&style="
         ++ default "apa" style)
        (WebAPIBackend.headers W) = Resolved resp →
  (WebAPIBackend.ok resp = false →
   WebAPIBackend.getBibliography fetch text W keys style
   = Rejected (mkError ("Failed to generate bibliography: "
                        ++ WebAPIBackend.string_of_Z (WebAPIBackend.status resp))))
  ∧ (WebAPIBackend.status resp = 429 →
     WebAPIBackend.getBibliography fetch text W keys style
     = Rejected (mkError "Failed to generate bibliography: 429"))
  ∧ (WebAPIBackend.status resp = 404 →
     WebAPIBackend.getBibliography fetch text W keys style
     = Rejected (mkError "Failed to generate bibliography: 404"))
  ∧ (WebAPIBackend.ok resp = true →
     WebAPIBackend.getBibliography fetch text W keys style = text resp).
Proof.
  intros Hfetch. unfold WebAPIBackend.getBibliography. rewrite Hfetch.
  cbn [mbind promise_bind]. unfold WebAPIBackend.ok.
  split_and!.
  - by intros ->.
  - intros ->. vm_compute. reflexivity.
  - intros ->. vm_compute. reflexivity.
  - by intros ->.
Qed.

End WebMore.

(** A throttled bibliography request. *)
Lemma web_getBibliography_failure_witness :
  WebAPIBackend.getBibliography (Sample.throttling_service "30")
    (λ _, Resolved "") Sample.web ["ITEM1"; "ITEM2"] None
  = Rejected (mkError "Failed to generate bibliography: 429").
Proof.
  refine (proj1 (proj2 (web_getBibliography_failure (Sample.throttling_service "30")
                          (λ _, Resolved "") Sample.web ["ITEM1"; "ITEM2"] None
                          _ eq_refl)) eq_refl).
Defined.

(** ** Relation URIs and query strings *)

Section RelationKeys.

Lemma strip_prefix_sound (p s t : string) :
  WebAPIBackend.strip_prefix p s = Some t → s = p ++ t.
Proof.
  revert s. induction p as [|a p IH]; intros s; simpl.
  - by intros [= ->].
  - destruct s as [|b s]; [done |].
    destruct (Ascii.eqb_spec a b) as [-> | Hne]; [| done].
    intros H. by rewrite (IH s H).
Qed.

Lemma strip_prefix_complete (p t : string) :
  WebAPIBackend.strip_prefix p (p ++ t) = Some t.
Proof.
  induction p as [|a p IH]; simpl; [done |]. by rewrite Ascii.eqb_refl.
Qed.

Lemma slashes_app (a b : string) : slashes (a ++ b) = (slashes a + slashes b)%nat.
Proof. induction a as [|c a IH]; simpl; [done |]. rewrite IH. lia. Qed.

Lemma key_chars_no_slash (k : string) :
  WebAPIBackend.all_key_chars k = true → slashes k = 0%nat.
Proof.
  induction k as [|c k IH]; simpl; [done |].
  intros [Hc Hk]%andb_prop. rewrite (IH Hk).
  destruct (Ascii.eqb_spec c "/") as [-> | _]; [done | done].
Qed.

Lemma relation_key_sound (uri k : string) :
  WebAPIBackend.relation_key uri = Some k →
  k ≠ "" ∧ WebAPIBackend.all_key_chars k = true
  ∧ ∃ pre, uri = pre ++ "/items/" ++ k.
Proof.
  induction uri as [|a uri IH].
  - simpl. done.
  - cbn [WebAPIBackend.relation_key].
    destruct (WebAPIBackend.strip_prefix "/items/" (String a uri)) as [[|c t]|] eqn:Hs.
    + intros H. destruct (IH H) as (Hne & Hall & pre & ->).
      split_and!; [done | done |]. by exists (String a pre).
    + destruct (WebAPIBackend.all_key_chars (String c t)) eqn:Hall.
      * intros [= <-]. split_and!; [done | done |].
        exists "". by apply strip_prefix_sound in Hs.
      * intros H. destruct (IH H) as (Hne & Hall' & pre & ->).
        split_and!; [done | done |]. by exists (String a pre).
    + intros H. destruct (IH H) as (Hne & Hall & pre & ->).
      split_and!; [done | done |]. by exists (String a pre).
Qed.

Lemma relation_key_complete (pre k : string) :
  k ≠ "" → WebAPIBackend.all_key_chars k = true →
  WebAPIBackend.relation_key (pre ++ "/items/" ++ k) = Some k.
Proof.
  intros Hne Hall. induction pre as [|a pre IH].
  - destruct k as [|c k]; [done |]. simpl in *. by rewrite Hall.
  - change (String a pre ++ "/items/" ++ k) with (String a (pre ++ "/items/" ++ k)).
    cbn [WebAPIBackend.relation_key].
    destruct (WebAPIBackend.strip_prefix "/items/" (String a (pre ++ "/items/" ++ k)))
      as [[|c t]|] eqn:Hs; [done | | done].
    destruct (WebAPIBackend.all_key_chars (String c t)) eqn:Ht; [| done].
    exfalso. apply strip_prefix_sound in Hs.
    apply key_chars_no_slash in Ht. apply key_chars_no_slash in Hall.
    assert (slashes (String a (pre ++ "/items/" ++ k))
            = slashes ("/items/" ++ String c t)) as Hcount by by rewrite Hs.
    assert (a = "/"%char) as -> by (by injection Hs).
    change (String "/" (pre ++ "/items/" ++ k))
      with ("/" ++ (pre ++ ("/items/" ++ k))) in Hcount.
    rewrite !slashes_app, Ht, Hall in Hcount. simpl in Hcount. lia.
Qed.

(** X24. Key extraction from a relation URI accepts exactly the URIs that end in
    [/items/] followed by a non-empty run of capital letters and digits, and
    returns that run. *)
Theorem relation_key_exact (uri k : string) :
  WebAPIBackend.relation_key uri = Some k
  ↔ k ≠ "" ∧ WebAPIBackend.all_key_chars k = true
    ∧ ∃ pre, uri = pre ++ "/items/" ++ k.
Proof.
  split.
  - apply relation_key_sound.
  - intros (Hne & Hall & pre & ->). by apply relation_key_complete.
Qed.

Lemma web_related_items_malformed (fetch : WebAPIBackend.Fetch)
    (W : WebAPIBackend.t) (uris : list string) :
  Forall (λ u, WebAPIBackend.relation_key u = None) uris →
  WebAPIBackend.related_items fetch W (JStr <$> uris) = Resolved [].
Proof.
  induction 1 as [|u uris Hu _ IH]; [done |].
  cbn [fmap list_fmap WebAPIBackend.related_items]. by rewrite Hu.
Qed.

(** X25. The web [getRelatedItems] skips malformed relation URIs silently: when
    the item is found and none of its [dc:relation] URIs ends in an item
    key, the answer is the empty list, whatever the service would say about
    other items; and an item without relations has no related items. *)
Theorem web_getRelatedItems_skips_malformed (fetch : WebAPIBackend.Fetch)
    (W : WebAPIBackend.t) (key : string) (item : ZoteroItem)
    (relations : gmap string JSON) (uris : list string) :
  WebAPIBackend.getItem fetch W key (Some false) = Resolved (Some item) →
  Forall (λ u, WebAPIBackend.relation_key u = None) uris →
  (item !! "relations" = Some (JObj relations) →
   relations !! "dc:relation" = Some (JArr (JStr <$> uris)) →
   WebAPIBackend.getRelatedItems fetch W key = Resolved [])
  ∧ (item !! "relations" = None →
     WebAPIBackend.getRelatedItems fetch W key = Resolved []).
Proof.
  intros Hget Hall. unfold WebAPIBackend.getRelatedItems. rewrite Hget.
  cbn [mbind promise_bind option_bind]. split.
  - intros -> ->. cbn [WebAPIBackend.falsy].
    by apply web_related_items_malformed.
  - by intros ->.
Qed.

End RelationKeys.

(** An item related only to things that are no item URIs. *)
Lemma web_getRelatedItems_skips_malformed_witness :
  WebAPIBackend.getRelatedItems Shelf.relations_service Sample.web "ITEM1"
  = Resolved [].
Proof.
  refine (proj1 (web_getRelatedItems_skips_malformed Shelf.relations_service
                   Sample.web "ITEM1" Shelf.related_item Shelf.related_relations
                   ["http://zotero.org/users/1/items/"; "urn:isbn:0131103628"]
                   _ _) _ _).
  - vm_compute. reflexivity.
  - repeat constructor.
  - vm_compute. reflexivity.
  - vm_compute. reflexivity.
Defined.

Section QueryStrings.

Lemma string_forall_app (P : ascii → bool) (a b : string) :
  string_forall P (a ++ b) = string_forall P a && string_forall P b.
Proof.
  induction a as [|c a IH]; simpl; [done |]. rewrite IH. by rewrite andb_assoc.
Qed.

Lemma urlencode_byte_safe (c : ascii) :
  string_forall is_query_safe (WebAPIBackend.urlencode_byte c) = true.
Proof. destruct c as [[] [] [] [] [] [] [] []]; vm_compute; reflexivity. Qed.

Lemma urlencode_byte_nonempty (c : ascii) : WebAPIBackend.urlencode_byte c ≠ "".
Proof. destruct c as [[] [] [] [] [] [] [] []]; vm_compute; discriminate. Qed.

Lemma query_safe_no_separator (c : ascii) :
  is_query_safe c = true →
  negb (Ascii.eqb c "&") && negb (Ascii.eqb c "=") && negb (Ascii.eqb c "#")
  && negb (Ascii.eqb c "?") && negb (Ascii.eqb c " ") = true.
Proof. destruct c as [[] [] [] [] [] [] [] []]; vm_compute; done. Qed.

(** A rendered parameter name or value consists of letters, digits and the
    characters [* - . _ + %] only: whatever the text, it holds no [&], [=],
    [#], [?], space or other character that would break the query string
    apart, and nothing is encoded when the text is empty. *)
Theorem urlencode_safe (s : string) :
  string_forall is_query_safe (WebAPIBackend.urlencode s) = true
  ∧ string_forall (λ c, negb (Ascii.eqb c "&") && negb (Ascii.eqb c "=")
                        && negb (Ascii.eqb c "#") && negb (Ascii.eqb c "?")
                        && negb (Ascii.eqb c " "))
      (WebAPIBackend.urlencode s) = true
  ∧ (WebAPIBackend.urlencode s = "" ↔ s = "").
Proof.
  assert (string_forall is_query_safe (WebAPIBackend.urlencode s) = true) as Hsafe.
  { induction s as [|c s IH]; [done |].
    cbn [WebAPIBackend.urlencode]. rewrite string_forall_app, IH.
    by rewrite urlencode_byte_safe. }
  split_and!; [done | |].
  - revert Hsafe. induction (WebAPIBackend.urlencode s) as [|c t IH]; [done |].
    cbn [string_forall]. intros [Hc Ht]%andb_prop. rewrite (IH Ht), andb_true_r.
    by apply query_safe_no_separator.
  - split; [| by intros ->]. destruct s as [|c s]; [done |].
    cbn [WebAPIBackend.urlencode].
    pose proof (urlencode_byte_nonempty c) as Hc.
    by destruct (WebAPIBackend.urlencode_byte c).
Qed.


Lemma join_amp_empty (l : list string) :
  Forall (λ s, s ≠ "") l → (JS.join "&" l = "" ↔ l = []).
Proof.
  destruct l as [|[|c t] rest]; [done | |].
  - intros [H _]%Forall_cons. done.
  - intros _. split; [| done]. by destruct rest.
Qed.

(** X26. [buildQueryString] renders exactly the parameters whose value is
    neither [undefined] nor the empty string, numbers and booleans
    included: the others can be dropped without changing the result, the
    result is empty exactly when no parameter is kept, and otherwise it
    starts with a question mark. *)
Theorem buildQueryString_kept (params : list (string * WebAPIBackend.Param)) :
  WebAPIBackend.buildQueryString params
  = WebAPIBackend.buildQueryString (filter (λ kv, Is_true (kept_param kv)) params)
  ∧ (WebAPIBackend.buildQueryString params = ""
     ↔ ∀ kv, kv ∈ params → kept_param kv = false)
  ∧ (WebAPIBackend.buildQueryString params ≠ "" →
     JS.startsWith "?" (WebAPIBackend.buildQueryString params) = true).
Proof.
  set (g := λ kv : string * WebAPIBackend.Param,
         match kv.2 with
         | WebAPIBackend.PUndefined | WebAPIBackend.PStr "" => None
         | v => Some (WebAPIBackend.urlencode kv.1 ++ "="
                      ++ WebAPIBackend.urlencode (WebAPIBackend.string_of_param v))
         end).
  assert (∀ l, WebAPIBackend.buildQueryString l
               = if JS.truthy (Some (JS.join "&" (omap g l)))
                 then "?" ++ JS.join "&" (omap g l) else "") as Hdef by done.
  assert (∀ kv, g kv = None ↔ kept_param kv = false) as Hg.
  { intros [k v]. unfold g, kept_param. cbn [snd].
    destruct v as [| [|c v] | n | b]; split; done. }
  assert (∀ l : list (string * WebAPIBackend.Param),
            Forall (λ s, s ≠ "") (omap g l)) as Hne.
  { induction l as [|kv l IH]; [constructor |].
    cbn [omap list_omap]. destruct (g kv) as [s0|] eqn:Hs; [| done].
    constructor; [| done]. unfold g in Hs.
    destruct kv as [k [| [|c v] | n | b]]; cbn [snd fst] in Hs; try done;
      injection Hs as <-; intros Heq;
      by destruct (WebAPIBackend.urlencode k). }
  assert (∀ l : list (string * WebAPIBackend.Param),
            omap g (filter (λ kv, Is_true (kept_param kv)) l) = omap g l) as Hfilter.
  { induction l as [|kv l IH]; [done |]. rewrite filter_cons.
    destruct (decide (Is_true (kept_param kv))) as [Hk | Hk].
    - cbn [omap list_omap]. by rewrite IH.
    - cbn [omap list_omap]. rewrite IH.
      apply Is_true_false in Hk. apply Hg in Hk. by rewrite Hk. }
  assert (∀ l : list (string * WebAPIBackend.Param),
            omap g l = [] ↔ ∀ kv, kv ∈ l → kept_param kv = false) as Hnil.
  { induction l as [|kv l IH].
    - split; [| done]. intros _ kv Hkv. by apply elem_of_nil in Hkv.
    - cbn [omap list_omap]. destruct (g kv) as [s0|] eqn:Hs.
      + split; [done |]. intros Hall.
        assert (g kv = None) as Hn by (apply Hg, Hall; left). congruence.
      + rewrite IH. apply Hg in Hs. split.
        * intros Hall kv' [-> | Hin]%elem_of_cons; [done | by apply Hall].
        * intros Hall kv' Hin. apply Hall. by right. }
  split_and!.
  - by rewrite !Hdef, Hfilter.
  - rewrite Hdef, <- Hnil, <- (join_amp_empty _ (Hne params)).
    by destruct (JS.join "&" (omap g params)).
  - rewrite Hdef. by destruct (JS.join "&" (omap g params)).
Qed.

End QueryStrings.

(** ** Properties of the display helpers of backends/types.ts *)

Section TypeFacts.

Lemma lower_not_upper (c : ascii) : is_upper (LocalBackend.lower c) = false.
Proof. destruct c as [[] [] [] [] [] [] [] []]; vm_compute; reflexivity. Qed.

Lemma toLowerCase_no_upper (s : string) :
  string_forall (λ c, negb (is_upper c)) (LocalBackend.toLowerCase s) = true.
Proof.
  induction s as [|c s IH]; [done |].
  cbn [LocalBackend.toLowerCase string_forall]. by rewrite lower_not_upper, IH.
Qed.

Lemma remove_spaces_forall (P : ascii → bool) (s : string) :
  string_forall P s = true →
  string_forall (λ c, negb (JS.is_space c) && P c) (TypeModel.remove_spaces s) = true.
Proof.
  induction s as [|c s IH]; [done |].
  cbn [TypeModel.remove_spaces string_forall]. intros [Hc Hs]%andb_prop.
  destruct (JS.is_space c) eqn:Hsp; [by apply IH |].
  cbn [string_forall]. by rewrite Hsp, Hc, IH.
Qed.

(** X27. A citation key holds no white space and no upper-case letter,
    whatever the item. *)
Theorem generateCitationKey_lowercase_no_space (item : ZoteroItem) :
  string_forall (λ c, negb (JS.is_space c) && negb (is_upper c))
    (TypeModel.generateCitationKey item) = true.
Proof.
  unfold TypeModel.generateCitationKey.
  apply remove_spaces_forall, toLowerCase_no_upper.
Qed.

(** X28. As soon as one creator is an author, only the authors are
    shown: up to three of them by name, separated by commas, and of more
    than three the first one followed by "et al.". *)
Theorem formatCreators_authors_only (creators : list (gmap string JSON)) :
  authors_of creators ≠ [] →
  TypeModel.formatCreators (Some creators)
  = TypeModel.formatCreators (Some (authors_of creators))
  ∧ ((List.length (authors_of creators) ≤ 3)%nat →
     TypeModel.formatCreators (Some creators)
     = JS.join ", " (TypeModel.getCreatorDisplayName <$> authors_of creators))
  ∧ ((3 < List.length (authors_of creators))%nat →
     ∃ first rest, authors_of creators = first :: rest
       ∧ TypeModel.formatCreators (Some creators)
         = TypeModel.getCreatorDisplayName first ++ " et al.").
Proof.
  intros Hne.
  assert (authors_of (authors_of creators) = authors_of creators) as Hidem.
  { unfold authors_of. rewrite list_filter_filter. apply list_filter_iff. tauto. }
  assert (∀ l, authors_of l ≠ [] →
            TypeModel.formatCreators (Some l)
            = if (3 <? Z.of_nat (List.length
                     (TypeModel.getCreatorDisplayName <$> authors_of l)))
              then default "undefined"
                     (head (TypeModel.getCreatorDisplayName <$> authors_of l))
                   ++ " et al."
              else JS.join ", " (TypeModel.getCreatorDisplayName <$> authors_of l))
    as Hdef.
  { intros [|c cs] Hl; [done |].
    unfold TypeModel.formatCreators. fold (authors_of (c :: cs)).
    by destruct (authors_of (c :: cs)). }
  split_and!.
  - rewrite (Hdef creators Hne), (Hdef (authors_of creators)); rewrite Hidem; done.
  - intros Hlen. rewrite (Hdef creators Hne), length_fmap.
    destruct (Z.ltb_spec 3 (Z.of_nat (List.length (authors_of creators)))); [lia | done].
  - intros Hlen. rewrite (Hdef creators Hne), length_fmap.
    destruct (authors_of creators) as [|a rest] eqn:Ha; [done |].
    exists a, rest. split; [done |].
    destruct (Z.ltb_spec 3 (Z.of_nat (List.length (a :: rest)))); [done | lia].
Qed.

(** Three creators of whom two are authors. *)
Lemma formatCreators_authors_only_witness :
  TypeModel.formatCreators
    (Some [JS.obj [("creatorType", Some (JStr "editor")); ("name", Some (JStr "Knuth"))];
           JS.obj [("creatorType", Some (JStr "author"));
                   ("firstName", Some (JStr "Ada")); ("lastName", Some (JStr "Lovelace"))];
           JS.obj [("creatorType", Some (JStr "author")); ("lastName", Some (JStr "Turing"))]])
  = "Ada Lovelace, Turing".
Proof.
  refine (eq_trans (proj1 (proj2 (formatCreators_authors_only _ _)) _) _).
  - intros Hnil. apply (f_equal List.length) in Hnil. vm_compute in Hnil.
    discriminate Hnil.
  - vm_compute. lia.
  - vm_compute. reflexivity.
Defined.

Lemma string_append_nil_r (s : string) : s ++ "" = s.
Proof.
  induction s as [|c s IH]; [done |].
  change (String c s ++ "") with (String c (s ++ "")). by rewrite IH.
Qed.

Lemma strip_tags_from_lacks (s t : string) :
  lacks "<" s = true →
  TypeModel.strip_tags_from None (s ++ t) = s ++ TypeModel.strip_tags_from None t.
Proof.
  induction s as [|c s IH]; [done |].
  unfold lacks. cbn [string_forall]. intros [Hc Hs]%andb_prop.
  change (String c s ++ t) with (String c (s ++ t)).
  cbn [TypeModel.strip_tags_from].
  apply negb_true_iff in Hc. rewrite Hc. by rewrite (IH Hs).
Qed.

Lemma strip_tags_lacks (s : string) :
  lacks "<" s = true → TypeModel.strip_tags s = s.
Proof.
  intros Hs. unfold TypeModel.strip_tags.
  rewrite <- (string_append_nil_r s) at 1.
  rewrite (strip_tags_from_lacks s "" Hs). cbn. apply string_append_nil_r.
Qed.

Lemma strip_tags_from_tag (q body t : string) :
  lacks ">" body = true → (q ≠ "" ∨ body ≠ "") →
  TypeModel.strip_tags_from (Some (String "<" q)) (body ++ String ">" t)
  = TypeModel.strip_tags_from None t.
Proof.
  revert q. induction body as [|c body IH]; intros q Hgt Hne.
  - destruct q as [|x q]; [by destruct Hne |].
    change ("" ++ String ">" t) with (String ">" t).
    cbn [TypeModel.strip_tags_from]. by rewrite Ascii.eqb_refl.
  - unfold lacks in Hgt. cbn [string_forall] in Hgt.
    apply andb_prop in Hgt as [Hc Hb]. apply negb_true_iff in Hc.
    change (String c body ++ String ">" t) with (String c (body ++ String ">" t)).
    cbn [TypeModel.strip_tags_from]. rewrite Hc.
    change (String "<" q ++ String c "") with (String "<" (q ++ String c "")).
    apply IH; [done |]. left. by destruct q.
Qed.

Lemma replace_from_lacks (p by_ s t : string) :
  lacks "&" s = true →
  TypeModel.replace_from (String "&" p) by_ O (s ++ t)
  = s ++ TypeModel.replace_from (String "&" p) by_ O t.
Proof.
  induction s as [|c s IH]; [done |].
  unfold lacks. cbn [string_forall]. intros [Hc Hs]%andb_prop.
  change (String c s ++ t) with (String c (s ++ t)).
  cbn [TypeModel.replace_from JS.startsWith].
  apply negb_true_iff in Hc. rewrite Ascii.eqb_sym in Hc. rewrite Hc.
  cbn [andb]. by rewrite (IH Hs).
Qed.

Lemma replace_from_id (p by_ s : string) :
  lacks "&" s = true → TypeModel.replace_from (String "&" p) by_ O s = s.
Proof.
  intros Hs. rewrite <- (string_append_nil_r s) at 1.
  rewrite (replace_from_lacks p by_ s "" Hs). cbn [TypeModel.replace_from].
  apply string_append_nil_r.
Qed.

Lemma replace_all_lacks (p by_ s : string) :
  lacks "&" s = true → TypeModel.replace_all (String "&" p) by_ s = s.
Proof. apply replace_from_id. Qed.

Lemma replace_from_skip (pat by_ skipped t : string) :
  TypeModel.replace_from pat by_ (String.length skipped) (skipped ++ t)
  = TypeModel.replace_from pat by_ O t.
Proof.
  induction skipped as [|c s IH]; [done |].
  change (String c s ++ t) with (String c (s ++ t)).
  cbn [String.length TypeModel.replace_from]. apply IH.
Qed.

Lemma lacks_app (a : ascii) (s t : string) :
  lacks a (s ++ t) = lacks a s && lacks a t.
Proof. apply string_forall_app. Qed.

(** A note without markup and without entities is returned as it is,
    trimmed. *)
Theorem noteToPlainText_plain (html : string) :
  lacks "<" html = true → lacks "&" html = true →
  TypeModel.noteToPlainText html = JS.trim html.
Proof.
  intros Hlt Hamp. unfold TypeModel.noteToPlainText.
  rewrite (strip_tags_lacks _ Hlt).
  by rewrite !(replace_all_lacks _ _ _ Hamp).
Qed.

Lemma noteToPlainText_plain_witness :
  TypeModel.noteToPlainText "  read again > chapter 2 " = "read again > chapter 2".
Proof.
  refine (eq_trans (noteToPlainText_plain _ _ _) _); vm_compute; reflexivity.
Defined.

(** X29. A tag, that is a [<], at least one character other than [>] and a
    [>], is removed from the text around it. *)
Theorem noteToPlainText_drops_tag (s body t : string) :
  lacks "<" s = true → lacks "&" s = true →
  lacks "<" t = true → lacks "&" t = true →
  lacks ">" body = true → body ≠ "" →
  TypeModel.noteToPlainText (s ++ "<" ++ body ++ ">" ++ t) = JS.trim (s ++ t).
Proof.
  intros Hs Hs' Ht Ht' Hb Hne. unfold TypeModel.noteToPlainText, TypeModel.strip_tags.
  rewrite (strip_tags_from_lacks _ _ Hs).
  change ("<" ++ body ++ ">" ++ t) with (String "<" (body ++ String ">" t)).
  cbn [TypeModel.strip_tags_from]. rewrite Ascii.eqb_refl.
  rewrite (strip_tags_from_tag "" body t Hb (or_intror Hne)).
  fold (TypeModel.strip_tags t). rewrite (strip_tags_lacks _ Ht).
  assert (lacks "&" (s ++ t) = true) as Hamp by (by rewrite lacks_app, Hs', Ht').
  by rewrite !(replace_all_lacks _ _ _ Hamp).
Qed.

Lemma noteToPlainText_drops_tag_witness :
  TypeModel.noteToPlainText "<p class='x'>see page 4" = "see page 4".
Proof.
  refine (eq_trans (noteToPlainText_drops_tag "" "p class='x'" "see page 4" _ _ _ _ _ _) _);
    try (vm_compute; reflexivity).
  discriminate.
Defined.

(** X30. The entities are replaced one after the other, [&amp;] before
    [&lt;], so an escaped ampersand followed by [lt;] is decoded twice and
    ends as [<]. *)
Theorem noteToPlainText_decodes_twice (s t : string) :
  lacks "<" s = true → lacks "&" s = true →
  lacks "<" t = true → lacks "&" t = true →
  TypeModel.noteToPlainText (s ++ "&amp;lt;" ++ t) = JS.trim (s ++ "<" ++ t).
Proof.
  intros Hs Hs' Ht Ht'. unfold TypeModel.noteToPlainText.
  assert (lacks "<" (s ++ "&amp;lt;" ++ t) = true) as Hlt.
  { rewrite !lacks_app, Hs, Ht. done. }
  rewrite (strip_tags_lacks _ Hlt). unfold TypeModel.replace_all.
  change ("&amp;lt;" ++ t)
    with (String "&" (String "a" (String "m" (String "p" (String ";"
           (String "l" (String "t" (String ";" t)))))))).
  (* &nbsp; *)
  rewrite (replace_from_lacks _ _ _ _ Hs').
  cbn [TypeModel.replace_from JS.startsWith Ascii.eqb Bool.eqb andb].
  rewrite (replace_from_id _ _ t Ht').
  (* &amp; *)
  rewrite (replace_from_lacks _ _ _ _ Hs').
  cbn [TypeModel.replace_from JS.startsWith Ascii.eqb Bool.eqb andb String.length Nat.sub].
  rewrite (replace_from_id _ _ t Ht').
  change ("&" ++ String "l" (String "t" (String ";" t)))
    with (String "&" (String "l" (String "t" (String ";" t)))).
  (* &lt; *)
  rewrite (replace_from_lacks _ _ _ _ Hs').
  cbn [TypeModel.replace_from JS.startsWith Ascii.eqb Bool.eqb andb String.length Nat.sub].
  rewrite (replace_from_id _ _ t Ht').
  change ("<" ++ t) with (String "<" t).
  (* the other three *)
  assert (lacks "&" (s ++ String "<" t) = true) as Hamp.
  { rewrite lacks_app, Hs'. unfold lacks in Ht' |- *. cbn [string_forall].
    by rewrite Ht'. }
  fold (TypeModel.replace_all "&gt;" ">" (s ++ String "<" t)).
  rewrite (replace_all_lacks _ _ _ Hamp).
  fold (TypeModel.replace_all "&quot;" (String (ascii_of_N 34) "") (s ++ String "<" t)).
  rewrite (replace_all_lacks _ _ _ Hamp).
  fold (TypeModel.replace_all "&#39;" "'" (s ++ String "<" t)).
  by rewrite (replace_all_lacks _ _ _ Hamp).
Qed.

Lemma noteToPlainText_decodes_twice_witness :
  TypeModel.noteToPlainText "a &amp;lt; b" = "a < b".
Proof.
  refine (eq_trans (noteToPlainText_decodes_twice "a " " b" _ _ _ _) _);
    vm_compute; reflexivity.
Defined.

End TypeFacts.
